(** * hadx: the packaging manifest [setup.py]

    The script evaluates three expressions against the current working
    directory and hands one configuration record to [setup]:

      packages         = find_packages(where="lib")
      scripts          = glob.glob("bin/*.py")
      install_requires = requirements_from_file('requirements.txt')

    This development embeds the script, together with the behaviour of the
    Python and setuptools calls it makes, and proves the properties of the
    manifest that the specification states. *)

From Stdlib Require Import List NArith Bool String Ascii Lia Arith.
Import ListNotations.

Local Open Scope N_scope.
Local Open Scope list_scope.

(* ================================================================= *)
(** * Python strings *)

(** A Python [str] is a sequence of Unicode code points. *)

Definition char := N.
Definition str := list char.

(** Literals: the code points of an ASCII string. *)
Definition py (s : string) : str := map N_of_ascii (list_ascii_of_string s).

Definition LF : char := 10.
Definition CR : char := 13.
Definition DOT : char := 46.
Definition SLASH : char := 47.
Definition HASH : char := 35.
Definition BACKSLASH : char := 92.

Definition str_eqb (a b : str) : bool :=
  if list_eq_dec N.eq_dec a b then true else false.

(** [c in s] *)
Definition contains (c : char) (s : str) : bool := existsb (N.eqb c) s.

(** [sep.join(parts)] *)
Fixpoint str_join (sep : str) (parts : list str) : str :=
  match parts with
  | [] => []
  | [p] => p
  | p :: ps => p ++ sep ++ str_join sep ps
  end.

(** [s.startswith(c)] and [s.endswith(c)] for one character *)
Definition startswith (c : char) (s : str) : bool :=
  match s with
  | x :: _ => x =? c
  | [] => false
  end.

Definition endswith (c : char) (s : str) : bool := startswith c (rev s).

(** [s.lstrip(c)] *)
Fixpoint lstrip (c : char) (s : str) : str :=
  match s with
  | [] => []
  | x :: s' => if x =? c then lstrip c s' else s
  end.

(** The text before the first [c], and the text from that [c] on. *)
Fixpoint break_at (c : char) (s : str) : str * str :=
  match s with
  | [] => ([], [])
  | x :: s' =>
      if x =? c then ([], s)
      else let (a, b) := break_at c s' in (x :: a, b)
  end.

(* ----------------------------------------------------------------- *)
(** ** [str.splitlines()] *)

(** The line boundaries of [str.splitlines]: \n, \r, \v, \f, \x1c, \x1d,
    \x1e, \x85, \u2028 and \u2029 (and \r\n, taken as one boundary). *)
Definition is_linebreak (c : char) : bool :=
  (c =? 10) || (c =? 13) || (c =? 11) || (c =? 12) ||
  (c =? 28) || (c =? 29) || (c =? 30) || (c =? 133) ||
  (c =? 8232) || (c =? 8233).

(** The inner loop [while i < len and not islinebreak(s[i]): i++]: the text
    up to the next line boundary, and the text from that boundary on. *)
Fixpoint scan_line (s : str) : str * str :=
  match s with
  | [] => ([], [])
  | c :: s' =>
      if is_linebreak c then ([], s)
      else let (l, r) := scan_line s' in (c :: l, r)
  end.

(** Skipping the boundary, [\r\n] read as one line break. *)
Definition skip_break (r : str) : str :=
  match r with
  | [] => []
  | c :: r' =>
      if c =? CR then
        match r' with
        | d :: r'' => if d =? LF then r'' else r'
        | [] => r'
        end
      else r'
  end.

(** The outer loop [for (i = j = 0; i < len; )]: one line is appended per
    iteration, and every iteration consumes at least one character, so the
    length of the text bounds the number of iterations. *)
Fixpoint splitlines_loop (fuel : nat) (s : str) : list str :=
  match fuel with
  | O => []
  | S fuel' =>
      match s with
      | [] => []
      | _ :: _ =>
          let (l, r) := scan_line s in
          l :: splitlines_loop fuel' (skip_break r)
      end
  end.

Definition splitlines (s : str) : list str := splitlines_loop (List.length s) s.

(* ================================================================= *)
(** * The file system *)

(** What decoding the bytes of a file with the locale's codec gives. *)
Inductive content : Type :=
| Undecodable
| Text (raw : str).

(** A directory lists its entries in the order in which the operating
    system enumerates them ([os.scandir]); a directory that cannot be
    listed enumerates nothing. A file records whether the process may open
    it for reading. *)
#[warnings="-register-all"]
Inductive node : Type :=
| File (readable : bool) (c : content)
| Dir (entries : list (str * node)).

Definition dir := list (str * node).

Fixpoint lookup (name : str) (d : dir) : option node :=
  match d with
  | [] => None
  | (n, x) :: d' => if str_eqb n name then Some x else lookup name d'
  end.

(** [os.path.isfile(os.path.join(path, name))] for the directory [d] at [path] *)
Definition isfile (name : str) (d : dir) : bool :=
  match lookup name d with
  | Some (File _ _) => true
  | _ => false
  end.

(** The names [os.scandir(name)] yields; nothing when [name] is missing or
    is not a directory (the [OSError] is swallowed by the callers below). *)
Definition listdir (cwd : dir) (name : str) : list str :=
  match lookup name cwd with
  | Some (Dir es) => map fst es
  | _ => []
  end.

(** Names are unique within a directory, at every level. *)
Fixpoint unique_names (names : list str) : bool :=
  match names with
  | [] => true
  | n :: ns => negb (existsb (str_eqb n) ns) && unique_names ns
  end.

Fixpoint wf_node (x : node) : bool :=
  match x with
  | File _ _ => true
  | Dir es =>
      unique_names (map fst es) &&
      forallb (fun e => wf_node (snd e)) es
  end.

(** Following a path of names down from a directory. *)
Fixpoint resolve (d : dir) (path : list str) : option node :=
  match path with
  | [] => Some (Dir d)
  | n :: path' =>
      match lookup n d with
      | Some (Dir d') => resolve d' path'
      | Some x => match path' with [] => Some x | _ => None end
      | None => None
      end
  end.

(* ================================================================= *)
(** * Computations of the script *)

(** The exceptions the calls of the script raise. *)
Inductive exn : Type :=
| FileNotFoundError
| PermissionError
| IsADirectoryError
| UnicodeDecodeError.

(** The subclasses of [OSError] among them. *)
Definition is_OSError (e : exn) : bool :=
  match e with
  | FileNotFoundError | PermissionError | IsADirectoryError => true
  | UnicodeDecodeError => false
  end.

Inductive result (A : Type) : Type :=
| Ok (a : A)
| Raise (e : exn).
Arguments Ok {A} a.
Arguments Raise {A} e.

(** The keyword arguments of the [setup] call. *)
Record config : Type := {
  name : str;
  version : str;
  package_dir : list (str * str);
  packages : list str;
  scripts : list str;
  install_requires : list str
}.

(** The calls that leave the script, in the order in which they happen. *)
Inductive event : Type :=
| Call_find_packages (where_ : str)
| Call_glob (pathname : str)
| Call_open (file_name : str)
| Call_read
| Call_setup (cfg : config).

(** A computation reads the working directory, logs its calls and either
    returns or raises. *)
Definition M (A : Type) : Type := dir -> list event * result A.

Definition ret {A} (a : A) : M A := fun _ => ([], Ok a).

Definition raise {A} (e : exn) : M A := fun _ => ([], Raise e).

Definition bind {A B} (m : M A) (k : A -> M B) : M B :=
  fun cwd =>
    match m cwd with
    | (t, Ok a) => let (t', r) := k a cwd in (t ++ t', r)
    | (t, Raise e) => (t, Raise e)
    end.

Definition call (ev : event) : M unit := fun _ => ([ev], Ok tt).

Definition getcwd : M dir := fun cwd => ([], Ok cwd).

Notation "x <- m ;; k" := (bind m (fun x => k))
  (at level 61, m at next level, right associativity).
Notation "m ;;; k" := (bind m (fun _ => k))
  (at level 61, right associativity).

Definition trace_of {A} (m : M A) (cwd : dir) : list event := fst (m cwd).
Definition outcome {A} (m : M A) (cwd : dir) : result A := snd (m cwd).

(** The records handed to [setup] in a trace. *)
Definition emitted (t : list event) : list config :=
  flat_map (fun ev => match ev with Call_setup cfg => [cfg] | _ => [] end) t.

(* ================================================================= *)
(** * The modules the script imports *)

(** [os.path] on POSIX. *)
Module posixpath.

(** [os.path.split(p)]: the text after the last slash is the tail; the head
    loses its trailing slashes unless it consists of slashes only. *)
Definition split (p : str) : str * str :=
  let (tail_r, head_r) := break_at SLASH (rev p) in
  let head_r' := match lstrip SLASH head_r with [] => head_r | h => h end in
  (rev head_r', rev tail_r).

(** [os.path.join(a, b)] *)
Definition join (a b : str) : str :=
  if startswith SLASH b then b
  else match a with
       | [] => b
       | _ => if endswith SLASH a then a ++ b else a ++ SLASH :: b
       end.

End posixpath.

Module fnmatch.

(** [fnmatch.translate]: [*] matches any text, [?] any one character and
    every other character itself. Bracket expressions are not part of this
    fragment; the pattern of the script has none. *)
Inductive tok : Type :=
| Star
| AnyChar
| Lit (c : char).

Definition translate (pat : str) : list tok :=
  map (fun c => if c =? 42 then Star else if c =? 63 then AnyChar else Lit c) pat.

(** Matching the whole of [s], as the compiled pattern does. *)
Fixpoint match_toks (p : list tok) (s : str) {struct p} : bool :=
  match p with
  | [] => match s with [] => true | _ => false end
  | Lit c :: p' =>
      match s with
      | x :: s' => (x =? c) && match_toks p' s'
      | [] => false
      end
  | AnyChar :: p' =>
      match s with
      | _ :: s' => match_toks p' s'
      | [] => false
      end
  | Star :: p' =>
      (fix star (s : str) : bool :=
         match_toks p' s ||
         match s with
         | [] => false
         | _ :: s' => star s'
         end) s
  end.

Definition fnmatchcase (name pat : str) : bool := match_toks (translate pat) name.

(** [fnmatch.filter(names, pat)]; [os.path.normcase] is the identity on POSIX. *)
Definition filter (names : list str) (pat : str) : list str :=
  List.filter (fun name => fnmatchcase name pat) names.

End fnmatch.

Module glob.

(** [glob._ishidden] *)
Definition ishidden (path : str) : bool := startswith DOT path.

(** [glob.has_magic]: the text has one of [*], [?] and [[]. *)
Definition has_magic (s : str) : bool :=
  existsb (fun c => (c =? 42) || (c =? 63) || (c =? 91)) s.

(** [glob._glob1]: the names of the directory [dirname] that match
    [pattern]; hidden names are dropped unless the pattern is hidden too. *)
Definition glob1 (cwd : dir) (dirname pattern : str) : list str :=
  let names := listdir cwd dirname in
  let names :=
    if negb (ishidden pattern) then List.filter (fun x => negb (ishidden x)) names
    else names in
  fnmatch.filter names pattern.

(** [glob._iglob] in the branch taken for a pattern whose directory part
    is a name of the working directory without magic, and whose base name
    has magic: [dirs = [dirname]] and [glob_in_dir = _glob1]. The pattern
    of the script has this shape. *)
Definition iglob (cwd : dir) (pathname : str) : list str :=
  let (dirname, basename) := posixpath.split pathname in
  map (posixpath.join dirname) (glob1 cwd dirname basename).

(** [glob.glob(pathname)] *)
Definition glob (pathname : str) : M (list str) :=
  call (Call_glob pathname) ;;;
  cwd <- getcwd ;;
  ret (iglob cwd pathname).

End glob.

Module setuptools.

(** The sub-package marker file. *)
Definition marker : str := py "__init__.py".

(** [PackageFinder._looks_like_package] *)
Definition looks_like_package (d : dir) : bool := isfile marker d.

(** [rel_path.replace(os.path.sep, '.')] for the relative path made of [names] *)
Definition dotted (names : list str) : str := str_join [DOT] names.

(** [PackageFinder.ALWAYS_EXCLUDE] and [_Finder.DEFAULT_EXCLUDE] *)
Definition ALWAYS_EXCLUDE : list str := [py "ez_setup"; py "*__pycache__"].
Definition DEFAULT_EXCLUDE : list str := [].

(** [_Filter.__call__]: the item matches one of the patterns. *)
Definition Filter_call (patterns : list str) (item : str) : bool :=
  existsb (fun pat => fnmatch.fnmatchcase item pat) patterns.

(** [_Filter.__contains__]: the item is one of the patterns. *)
Definition Filter_contains (patterns : list str) (item : str) : bool :=
  existsb (str_eqb item) patterns.

(** The first test of [_find_iter] on a sub-directory, negated: its name
    has no dot and it looks like a package. *)
Definition is_package (e : str * node) : bool :=
  match snd e with
  | Dir sub => negb (contains DOT (fst e)) && looks_like_package sub
  | File _ _ => false
  end.

(** [if include(package) and not exclude(package): yield package] *)
Definition yielded (exclude include : list str) (package : str) : bool :=
  Filter_call include package && negb (Filter_call exclude package).

(** The early pruning:
    [if f"{package}*" in exclude or f"{package}.*" in exclude: continue] *)
Definition pruned (exclude : list str) (package : str) : bool :=
  Filter_contains exclude (package ++ py "*") ||
  Filter_contains exclude (package ++ py ".*").

(** [PackageFinder._find_iter] over [os.walk(where, followlinks=True)],
    top-down, for the directory at relative path [root]: every
    sub-directory that is a package is yielded if the filters let it
    through, and stays in [dirs] for the walk to descend into unless it is
    pruned, also when it was not yielded; the sub-directories that are no
    packages are left out together with all that is below them. *)
Fixpoint find_iter (exclude include : list str) (root : list str) (x : node)
    {struct x} : list str :=
  match x with
  | File _ _ => []
  | Dir es =>
      map (fun e => dotted (root ++ [fst e]))
          (List.filter
             (fun e => is_package e &&
                       yielded exclude include (dotted (root ++ [fst e])))
             es)
      ++
      flat_map
        (fun e =>
           if is_package e && negb (pruned exclude (dotted (root ++ [fst e])))
           then find_iter exclude include (root ++ [fst e]) (snd e)
           else [])
        es
  end.

(** [PackageFinder.find(where, exclude, include)]: [os.walk] yields nothing
    for a root that is missing or is not a directory. *)
Definition find (where_ : str) (exclude include : list str) : M (list str) :=
  call (Call_find_packages where_) ;;;
  cwd <- getcwd ;;
  let exclude := match exclude with [] => DEFAULT_EXCLUDE | _ => exclude end in
  ret match lookup where_ cwd with
      | Some x => find_iter (ALWAYS_EXCLUDE ++ exclude) include [] x
      | None => []
      end.

(** [find_packages = PackageFinder.find], with the defaults [exclude=()]
    and [include=('*',)]. *)
Definition find_packages (where_ : str) : M (list str) :=
  find where_ [] [py "*"].

(** [setup(...)]: the hand-over of the configuration record to the
    build tool. *)
Definition setup (cfg : config) : M unit := call (Call_setup cfg).

End setuptools.

(* ----------------------------------------------------------------- *)
(** ** Built-in file objects *)

(** [open(file_name)], in text mode for reading. *)
Definition open (file_name : str) : M content :=
  call (Call_open file_name) ;;;
  cwd <- getcwd ;;
  match lookup file_name cwd with
  | None => raise FileNotFoundError
  | Some (Dir _) => raise IsADirectoryError
  | Some (File false _) => raise PermissionError
  | Some (File true c) => ret c
  end.

(** Universal newlines, the default of text mode: [\r\n] and [\r] are
    read as [\n]. *)
Fixpoint universal_newlines (s : str) : str :=
  match s with
  | [] => []
  | c :: s' =>
      if c =? CR then
        LF :: match s' with
              | d :: s'' =>
                  if d =? LF then universal_newlines s''
                  else universal_newlines s'
              | [] => []
              end
      else c :: universal_newlines s'
  end.

(** [f.read()] *)
Definition read (f : content) : M str :=
  call Call_read ;;;
  match f with
  | Undecodable => raise UnicodeDecodeError
  | Text raw => ret (universal_newlines raw)
  end.

(* ================================================================= *)
(** * The script *)

(** [from setuptools import setup, find_packages] *)
Import setuptools(setup, find_packages).

(** [def requirements_from_file(file_name):
       return open(file_name).read().splitlines()] *)
Definition requirements_from_file (file_name : str) : M (list str) :=
  f <- open file_name ;;
  s <- read f ;;
  ret (splitlines s).

(** The module body: the keyword arguments are evaluated from left to
    right, then [setup] is called. *)
Definition setup_py : M unit :=
  pkgs <- find_packages (py "lib") ;;
  scrs <- glob.glob (py "bin/*.py") ;;
  reqs <- requirements_from_file (py "requirements.txt") ;;
  setup {| name := py "hadx";
           version := py "1.0.0";
           package_dir := [(py "", py "lib")];
           packages := pkgs;
           scripts := scrs;
           install_requires := reqs |}.

(* ================================================================= *)
(** * Vocabulary of the statements *)

(** The names the script refers to. *)
Definition requirements_txt : str := py "requirements.txt".
Definition script_pattern : str := py "bin/*.py".

(** A line: text without any line boundary. *)
Definition no_linebreak (l : str) : bool :=
  forallb (fun c => negb (is_linebreak c)) l.

Definition nonempty (l : str) : bool :=
  match l with [] => false | _ :: _ => true end.

(** The text of a file whose lines are [ls], each ended by a newline. *)
Definition unlines (ls : list str) : str := flat_map (fun l => l ++ [LF]) ls.

(** The text [pre] stops where a line starts: at the start of the file or
    just after a newline. *)
Definition at_line_start (pre : str) : bool :=
  match pre with [] => true | _ :: _ => endswith LF pre end.

(** The text is not empty and its last character is not a line boundary. *)
Fixpoint ends_inside_line (s : str) : bool :=
  match s with
  | [] => false
  | [c] => negb (is_linebreak c)
  | _ :: s' => ends_inside_line s'
  end.

(** The exception that reading the file as text ends in, if any. *)
Definition access_error (x : option node) : option exn :=
  match x with
  | None => Some FileNotFoundError
  | Some (Dir _) => Some IsADirectoryError
  | Some (File false _) => Some PermissionError
  | Some (File true Undecodable) => Some UnicodeDecodeError
  | Some (File true (Text _)) => None
  end.

(** The file exists and reads as text. *)
Definition readable_text (x : option node) : bool :=
  match x with
  | Some (File true (Text _)) => true
  | _ => false
  end.

(** Two trees that differ at most in what their files hold. *)
#[warnings="-register-all"]
Inductive same_shape : node -> node -> Prop :=
| same_file r1 c1 r2 c2 : same_shape (File r1 c1) (File r2 c2)
| same_dir es1 es2 :
    Forall2 (fun e1 e2 => fst e1 = fst e2 /\ same_shape (snd e1) (snd e2))
            es1 es2 ->
    same_shape (Dir es1) (Dir es2).

(** [name] ends in [.py] *)
Definition has_py_extension (name : str) : Prop :=
  exists stem, name = stem ++ py ".py".

(** Below the directory [d], every directory along [path] has a name
    without a dot and holds the marker file. *)
Fixpoint package_chain (d : dir) (path : list str) : bool :=
  match path with
  | [] => true
  | n :: path' =>
      match lookup n d with
      | Some (Dir sub) =>
          negb (contains DOT n) && setuptools.looks_like_package sub &&
          package_chain sub path'
      | _ => false
      end
  end.

(** The packages found below the directory [x] at relative path [root],
    with the filters of [find_packages]. *)
Definition packages_below (root : list str) (x : node) : list str :=
  setuptools.find_iter setuptools.ALWAYS_EXCLUDE [py "*"] root x.

(** The exclude filter of [find_packages] holds of the package name. *)
Definition excluded (package : str) : bool :=
  setuptools.Filter_call setuptools.ALWAYS_EXCLUDE package.

(** The package name is [ez_setup] or ends in [__pycache__]. *)
Definition always_excluded (package : str) : Prop :=
  package = py "ez_setup" \/ exists stem, package = stem ++ py "__pycache__".

(** No name of the path has a dot. *)
Definition dot_free (path : list str) : bool :=
  forallb (fun n => negb (contains DOT n)) path.


(** The record the script assembles from the working directory and the
    list of requirements. *)
Definition manifest (cwd : dir) (reqs : list str) : config :=
  {| name := py "hadx";
     version := py "1.0.0";
     package_dir := [(py "", py "lib")];
     packages := match lookup (py "lib") cwd with
                 | Some x => packages_below [] x
                 | None => []
                 end;
     scripts := glob.iglob cwd script_pattern;
     install_requires := reqs |}.

(** Induction over a tree, with the hypothesis for every entry of a
    directory. *)
Fixpoint node_tree_ind (P : node -> Prop)
    (HF : forall r c, P (File r c))
    (HD : forall es, Forall (fun e => P (snd e)) es -> P (Dir es))
    (x : node) {struct x} : P x :=
  match x with
  | File r c => HF r c
  | Dir es =>
      HD es
        ((fix entries (es : dir) : Forall (fun e => P (snd e)) es :=
            match es with
            | [] => Forall_nil _
            | e :: es' =>
                Forall_cons e (node_tree_ind P HF HD (snd e)) (entries es')
            end) es)
  end.

(** The text of a file whose lines are [ls], each ended by [\r\n]. *)
Definition unlines_crlf (ls : list str) : str :=
  flat_map (fun l => l ++ [CR; LF]) ls.

(** The newline is the only line boundary the text has. *)
Definition newline_only (s : str) : bool :=
  forallb (fun c => (c =? LF) || negb (is_linebreak c)) s.

(** The name has no slash. *)
Definition slash_free (n : str) : bool := negb (contains SLASH n).

(** Running a computation of the script: its operations, unfolded. *)
Ltac run_script :=
  unfold requirements_from_file, open, read, bind, call, getcwd, ret, raise.

(* ================================================================= *)
(** * Facts about strings *)

Lemma str_eqb_eq a b : str_eqb a b = true <-> a = b.
Proof.
  unfold str_eqb. destruct (list_eq_dec N.eq_dec a b); split; congruence.
Qed.

Lemma str_eqb_refl a : str_eqb a a = true.
Proof. now apply str_eqb_eq. Qed.

(* ================================================================= *)
(** * Facts about [splitlines] *)

Lemma str_length_ind (P : str -> Prop) :
  (forall s, (forall t, (List.length t < List.length s)%nat -> P t) -> P s) ->
  forall s, P s.
Proof.
  intros H s.
  assert (G : forall n t, (List.length t < n)%nat -> P t).
  { induction n as [|n IH]; intros t Ht; [lia|].
    apply H. intros u Hu. apply IH. lia. }
  apply (G (S (List.length s))). lia.
Qed.

Lemma no_linebreak_cons c l :
  no_linebreak (c :: l) = negb (is_linebreak c) && no_linebreak l.
Proof. reflexivity. Qed.

Lemma no_linebreak_app l1 l2 :
  no_linebreak (l1 ++ l2) = no_linebreak l1 && no_linebreak l2.
Proof. unfold no_linebreak. apply forallb_app. Qed.

Lemma scan_line_spec s l r :
  scan_line s = (l, r) ->
  s = l ++ r /\ no_linebreak l = true /\
  match r with [] => True | b :: _ => is_linebreak b = true end.
Proof.
  revert l r. induction s as [|c s IH]; intros l r H; simpl in H.
  - inversion H; subst. auto.
  - destruct (is_linebreak c) eqn:Hc.
    + inversion H; subst. simpl. auto.
    + destruct (scan_line s) as [a b] eqn:Hs. inversion H; subst.
      destruct (IH a r eq_refl) as (E & Ha & Hr).
      rewrite no_linebreak_cons, Hc, Ha. simpl. rewrite <- E. auto.
Qed.

Lemma scan_line_app l r :
  no_linebreak l = true ->
  match r with [] => True | b :: _ => is_linebreak b = true end ->
  scan_line (l ++ r) = (l, r).
Proof.
  intros Hl Hr. induction l as [|c l IH]; simpl.
  - destruct r as [|b r]; [reflexivity|]. simpl. now rewrite Hr.
  - rewrite no_linebreak_cons in Hl. apply andb_prop in Hl as [Hc Hl].
    apply negb_true_iff in Hc. rewrite Hc, (IH Hl). reflexivity.
Qed.

Lemma skip_break_length b r :
  (List.length (skip_break (b :: r)) <= List.length r)%nat.
Proof.
  simpl. destruct (b =? CR); [|lia].
  destruct r as [|d r]; simpl; [lia|]. destruct (d =? LF); simpl; lia.
Qed.

Lemma skip_break_LF r : skip_break (LF :: r) = r.
Proof. reflexivity. Qed.

Lemma splitlines_loop_fuel n m s :
  (List.length s <= n)%nat -> (List.length s <= m)%nat ->
  splitlines_loop n s = splitlines_loop m s.
Proof.
  revert m s. induction n as [|n IH]; intros m s Hn Hm.
  - destruct s; simpl in Hn; [|lia]. now destruct m.
  - destruct s as [|c s]; [now destruct m|].
    destruct m as [|m]; [simpl in Hm; lia|].
    cbn [splitlines_loop].
    destruct (scan_line (c :: s)) as [l r] eqn:Hs.
    f_equal.
    destruct (scan_line_spec _ _ _ Hs) as (E & _ & _).
    assert (Hlen : (List.length r <= List.length (c :: s))%nat).
    { rewrite E, length_app. lia. }
    destruct r as [|b r]; [now destruct n, m|].
    pose proof (skip_break_length b r). simpl in Hn, Hm, Hlen.
    change (List.length (b :: r)) with (S (List.length r)) in Hlen.
    apply IH; lia.
Qed.

(** The loop, one iteration unrolled. *)
Lemma splitlines_unfold s :
  splitlines s =
  match s with
  | [] => []
  | _ :: _ => let (l, r) := scan_line s in l :: splitlines (skip_break r)
  end.
Proof.
  unfold splitlines. destruct s as [|c s]; [reflexivity|].
  cbn [List.length splitlines_loop].
  destruct (scan_line (c :: s)) as [l r] eqn:Hs.
  f_equal.
  destruct (scan_line_spec _ _ _ Hs) as (E & _ & _).
  assert (Hlen : (List.length r <= List.length (c :: s))%nat).
  { rewrite E, length_app. lia. }
  destruct r as [|b r]; [now destruct (List.length s)|].
  pose proof (skip_break_length b r).
  change (List.length (b :: r)) with (S (List.length r)) in Hlen.
  simpl in Hlen.
  apply splitlines_loop_fuel; lia.
Qed.

Lemma splitlines_nil : splitlines [] = [].
Proof. reflexivity. Qed.

(** A line followed by a boundary is split off. *)
Lemma splitlines_line l b r :
  no_linebreak l = true -> is_linebreak b = true ->
  splitlines (l ++ b :: r) = l :: splitlines (skip_break (b :: r)).
Proof.
  intros Hl Hb. rewrite splitlines_unfold.
  rewrite (scan_line_app l (b :: r) Hl Hb).
  destruct l; reflexivity.
Qed.

(** Text without a boundary is one line, unless it is empty. *)
Lemma splitlines_last l :
  no_linebreak l = true ->
  splitlines l = if nonempty l then [l] else [].
Proof.
  intros Hl. rewrite splitlines_unfold. destruct l as [|c l]; [reflexivity|].
  rewrite <- (app_nil_r (c :: l)) at 1.
  rewrite (scan_line_app (c :: l) [] Hl I). reflexivity.
Qed.

(** Lines ended by newlines come back as they are. *)
Lemma splitlines_unlines ls rest :
  forallb no_linebreak ls = true ->
  splitlines (unlines ls ++ rest) = ls ++ splitlines rest.
Proof.
  induction ls as [|l ls IH]; intros H; simpl in *; [reflexivity|].
  apply andb_prop in H as [Hl Hls].
  rewrite <- !app_assoc. simpl.
  rewrite splitlines_line by (auto; reflexivity).
  rewrite skip_break_LF. f_equal. now apply IH.
Qed.

(** No entry holds a line boundary. *)
Lemma splitlines_no_linebreak (s : str) :
  forallb no_linebreak (splitlines s) = true.
Proof.
  induction s as [s IH] using str_length_ind.
  rewrite splitlines_unfold. destruct s as [|c s]; [reflexivity|].
  destruct (scan_line (c :: s)) as [l r] eqn:Hs.
  destruct (scan_line_spec _ _ _ Hs) as (E & Hl & Hr).
  simpl. rewrite Hl. simpl. apply IH.
  assert (Hlen : (List.length r <= List.length (c :: s))%nat).
  { rewrite E, length_app. lia. }
  destruct r as [|b r]; [simpl; lia|].
  pose proof (skip_break_length b r).
  change (List.length (b :: r)) with (S (List.length r)) in Hlen. lia.
Qed.

Lemma at_line_start_inv pre :
  at_line_start pre = true -> pre = [] \/ exists p, pre = p ++ [LF].
Proof.
  destruct pre as [|c pre]; [now left|]. intros H. right.
  unfold at_line_start, endswith, startswith in H.
  destruct (rev (c :: pre)) as [|x t] eqn:E; [discriminate|].
  apply N.eqb_eq in H. subst x. exists (rev t).
  rewrite <- (rev_involutive (c :: pre)), E. reflexivity.
Qed.

(** What follows a boundary that is itself followed, sooner or later, by a
    newline: the newline is still there, or it was the second half of
    [\r\n]. *)
Lemma skip_break_before_LF b r :
  (exists q, (List.length q <= List.length r)%nat /\
             forall x, skip_break (b :: r ++ LF :: x) = q ++ LF :: x) \/
  (forall x, skip_break (b :: r ++ LF :: x) = x).
Proof.
  simpl. destruct (b =? CR).
  - destruct r as [|d r]; simpl.
    + right. reflexivity.
    + left. destruct (d =? LF).
      * exists r. split; [lia|reflexivity].
      * exists (d :: r). split; [simpl; lia|reflexivity].
  - left. exists r. split; [lia|reflexivity].
Qed.

(** Splitting distributes over a cut made just after a newline. *)
Lemma splitlines_app_LF (pre rest : str) :
  splitlines ((pre ++ [LF]) ++ rest) =
  splitlines (pre ++ [LF]) ++ splitlines rest.
Proof.
  revert rest. induction pre as [pre IH] using str_length_ind. intros rest.
  destruct (scan_line pre) as [l r] eqn:Hs.
  destruct (scan_line_spec _ _ _ Hs) as (E & Hl & Hr). subst pre.
  rewrite <- !app_assoc. destruct r as [|b r].
  - cbn [app]. rewrite !splitlines_line by (auto; reflexivity). reflexivity.
  - cbn [app]. rewrite !splitlines_line by auto.
    cbn [app]. f_equal.
    destruct (skip_break_before_LF b r) as [(q & Hq & Hskip)|Hskip].
    + rewrite (Hskip rest), (Hskip []).
      change (q ++ LF :: rest) with (q ++ [LF] ++ rest).
      rewrite app_assoc. apply IH.
      rewrite length_app. simpl. lia.
    + rewrite (Hskip rest), (Hskip []). reflexivity.
Qed.

Lemma splitlines_at_line_start pre rest :
  at_line_start pre = true ->
  splitlines (pre ++ rest) = splitlines pre ++ splitlines rest.
Proof.
  intros H. destruct (at_line_start_inv pre H) as [->|(p & ->)].
  - reflexivity.
  - apply splitlines_app_LF.
Qed.

(** A line that starts where a line starts and is ended by a newline is an
    entry of its own, whatever surrounds it. *)
Lemma splitlines_own_entry pre line post :
  at_line_start pre = true -> no_linebreak line = true ->
  splitlines (pre ++ line ++ LF :: post) =
  splitlines pre ++ line :: splitlines post.
Proof.
  intros Hpre Hline. rewrite splitlines_at_line_start by assumption.
  rewrite splitlines_line by (auto; reflexivity). reflexivity.
Qed.

Lemma ends_inside_line_app l r :
  r <> [] -> ends_inside_line (l ++ r) = ends_inside_line r.
Proof.
  intros Hr. induction l as [|c l IH]; [reflexivity|].
  simpl. destruct (l ++ r) eqn:E; [|exact IH].
  destruct l, r; simpl in E; congruence.
Qed.

(** A newline after the last line adds no entry. *)
Lemma splitlines_trailing_newline (body : str) :
  ends_inside_line body = true ->
  splitlines (body ++ [LF]) = splitlines body.
Proof.
  induction body as [body IH] using str_length_ind. intros Hend.
  destruct (scan_line body) as [l r] eqn:Hs.
  destruct (scan_line_spec _ _ _ Hs) as (E & Hl & Hr). subst body.
  destruct r as [|b r].
  - rewrite app_nil_r in *. rewrite splitlines_line by (auto; reflexivity).
    rewrite (splitlines_last l) by assumption.
    destruct l; [discriminate|reflexivity].
  - rewrite ends_inside_line_app in Hend by discriminate.
    rewrite <- app_assoc. cbn [app].
    rewrite !splitlines_line by auto. f_equal.
    destruct r as [|d r]; [simpl in Hend; rewrite Hr in Hend; discriminate|].
    assert (Hd : ends_inside_line (d :: r) = true).
    { rewrite <- Hend. symmetry.
      apply (ends_inside_line_app [b] (d :: r)). discriminate. }
    assert (Hlen : forall t : str,
               (List.length t <= List.length (d :: r))%nat ->
               (List.length t < List.length (l ++ b :: d :: r))%nat).
    { intros t Ht. rewrite length_app. simpl in *. lia. }
    cbn [skip_break app]. destruct (b =? CR); [destruct (d =? LF) eqn:Hd'|].
    + apply N.eqb_eq in Hd'. subst d.
      destruct r as [|e r]; [discriminate|].
      apply IH; [apply Hlen; simpl; lia|].
      rewrite <- Hd. symmetry.
      apply (ends_inside_line_app [LF] (e :: r)). discriminate.
    + apply (IH (d :: r)); [apply Hlen; lia|assumption].
    + apply (IH (d :: r)); [apply Hlen; lia|assumption].
Qed.

(* ================================================================= *)
(** * Universal newlines and [splitlines] *)

Lemma is_linebreak_CR c : (c =? CR) = true -> is_linebreak c = true.
Proof. intros H. apply N.eqb_eq in H. subst c. reflexivity. Qed.

Lemma universal_newlines_line l r :
  no_linebreak l = true ->
  universal_newlines (l ++ r) = l ++ universal_newlines r.
Proof.
  intros Hl. induction l as [|c l IH]; [reflexivity|].
  rewrite no_linebreak_cons in Hl. apply andb_prop in Hl as [Hc Hl].
  apply negb_true_iff in Hc.
  simpl. destruct (c =? CR) eqn:E.
  - apply is_linebreak_CR in E. congruence.
  - now rewrite IH.
Qed.

(** Reading with universal newlines does not change the lines. *)
Lemma splitlines_universal_newlines (s : str) :
  splitlines (universal_newlines s) = splitlines s.
Proof.
  induction s as [s IH] using str_length_ind.
  destruct (scan_line s) as [l r] eqn:Hs.
  destruct (scan_line_spec _ _ _ Hs) as (E & Hl & Hr). subst s.
  rewrite universal_newlines_line by assumption.
  destruct r as [|b r]; [reflexivity|].
  assert (Hlen : forall t : str,
             (List.length t <= List.length r)%nat ->
             (List.length t < List.length (l ++ b :: r))%nat).
  { intros t Ht. rewrite length_app. simpl. lia. }
  rewrite (splitlines_line l b r) by assumption.
  cbn [universal_newlines skip_break]. destruct (b =? CR) eqn:Hb.
  - destruct r as [|d r].
    + rewrite splitlines_line by (auto; reflexivity). reflexivity.
    + rewrite splitlines_line by (auto; reflexivity).
      rewrite skip_break_LF. f_equal.
      destruct (d =? LF); apply IH, Hlen; simpl; lia.
  - rewrite splitlines_line by assumption.
    cbn [skip_break]. rewrite Hb. f_equal.
    destruct (universal_newlines r) eqn:Hu; rewrite <- Hu; apply IH, Hlen; lia.
Qed.

(* ================================================================= *)
(** * [requirements_from_file] *)

(** Reading a readable text file logs the two calls and returns the lines
    of its raw text. *)
Lemma requirements_from_file_text cwd file_name raw :
  lookup file_name cwd = Some (File true (Text raw)) ->
  requirements_from_file file_name cwd =
  ([Call_open file_name; Call_read], Ok (splitlines raw)).
Proof.
  intros H. run_script.
  rewrite H. simpl. now rewrite splitlines_universal_newlines.
Qed.

(** Every other state of the file makes the call raise: [open] fails on a
    missing file, a directory or a file without read permission, [read] on
    bytes that do not decode. *)
Lemma requirements_from_file_raises cwd file_name e :
  access_error (lookup file_name cwd) = Some e ->
  requirements_from_file file_name cwd =
  (if is_OSError e then [Call_open file_name]
   else [Call_open file_name; Call_read], Raise e).
Proof.
  intros H.
  run_script.
  destruct (lookup file_name cwd) as [[[|] [|raw]|es]|];
    simpl in H; inversion H; subst; reflexivity.
Qed.

Lemma requirements_from_file_ok_inv cwd file_name entries :
  outcome (requirements_from_file file_name) cwd = Ok entries ->
  exists raw, lookup file_name cwd = Some (File true (Text raw)) /\
              entries = splitlines raw.
Proof.
  intros H. unfold outcome in H.
  destruct (lookup file_name cwd) as [[[|] [|raw]|es]|] eqn:E;
    try (revert H; run_script; rewrite E; simpl; discriminate).
  rewrite (requirements_from_file_text _ _ _ E) in H. simpl in H.
  exists raw. split; congruence.
Qed.

(** C1, as the specification words it, fails: a file with the three lines
    [foo==1.0], an empty line and [bar>=2] has two non-empty lines, and the
    list returned for it has three entries. *)
Lemma requirements_count_blank_lines :
  let lines := [py "foo==1.0"; []; py "bar>=2"] in
  let cwd := [(requirements_txt, File true (Text (unlines lines)))] in
  exists entries,
    outcome (requirements_from_file requirements_txt) cwd = Ok entries /\
    List.length (filter nonempty lines) = 2%nat /\
    List.length entries = 3%nat /\
    entries <> filter nonempty lines.
Proof.
  eexists. split; [reflexivity|]. repeat split. discriminate.
Qed.

(** C1 (amended): a requirements file made of N lines, each ended by a
    newline (the newline after the last line may be missing) and none
    holding another line boundary, gives exactly N entries, in the order of
    the file, each equal to the text of its line; empty lines count, and
    give empty entries. *)
Theorem requirements_one_entry_per_line cwd file_name lines last :
  lookup file_name cwd = Some (File true (Text (unlines lines ++ last))) ->
  forallb no_linebreak lines = true ->
  no_linebreak last = true ->
  let all_lines := lines ++ (if nonempty last then [last] else []) in
  outcome (requirements_from_file file_name) cwd = Ok all_lines /\
  forall entries,
    outcome (requirements_from_file file_name) cwd = Ok entries ->
    List.length entries = List.length all_lines /\
    forall i, nth_error entries i = nth_error all_lines i.
Proof.
  intros Hf Hlines Hlast all_lines.
  assert (E : outcome (requirements_from_file file_name) cwd = Ok all_lines).
  { unfold outcome. rewrite (requirements_from_file_text _ _ _ Hf). simpl.
    rewrite splitlines_unlines by assumption.
    now rewrite splitlines_last by assumption. }
  split; [exact E|].
  intros entries H. rewrite E in H. inversion H; subst. auto.
Qed.

Lemma requirements_one_entry_per_line_witness :
  outcome (requirements_from_file requirements_txt)
    [(requirements_txt,
      File true (Text (unlines [py "foo==1.0"; []] ++ py "bar>=2")))] =
  Ok [py "foo==1.0"; []; py "bar>=2"].
Proof.
  exact (proj1 (requirements_one_entry_per_line
    [(requirements_txt,
      File true (Text (unlines [py "foo==1.0"; []] ++ py "bar>=2")))]
    requirements_txt [py "foo==1.0"; []] (py "bar>=2")
    eq_refl eq_refl eq_refl)).
Defined.

(** C7: a line that begins with [#] or ends with a backslash is an entry
    of the list exactly as written, between the entries of the text before
    it and those of the text after it: it is neither dropped nor joined to
    the next line. *)
Theorem requirements_keep_comments_and_continuations
    cwd file_name pre line post :
  lookup file_name cwd = Some (File true (Text (pre ++ line ++ LF :: post))) ->
  at_line_start pre = true ->
  no_linebreak line = true ->
  startswith HASH line = true \/ endswith BACKSLASH line = true ->
  outcome (requirements_from_file file_name) cwd =
  Ok (splitlines pre ++ line :: splitlines post).
Proof.
  intros Hf Hpre Hline _. unfold outcome.
  rewrite (requirements_from_file_text _ _ _ Hf). simpl.
  now rewrite splitlines_own_entry.
Qed.

Lemma requirements_keep_comments_and_continuations_witness :
  let comment := py "# pinned" in
  let continued := py "foo " ++ [BACKSLASH] in
  let raw := comment ++ LF :: continued ++ LF :: py "bar" ++ [LF] in
  let cwd := [(requirements_txt, File true (Text raw))] in
  outcome (requirements_from_file requirements_txt) cwd =
    Ok [comment; continued; py "bar"] /\
  outcome (requirements_from_file requirements_txt) cwd =
    Ok (splitlines (comment ++ [LF]) ++
        continued :: splitlines (py "bar" ++ [LF])).
Proof.
  intros comment continued raw cwd. split.
  - exact (requirements_keep_comments_and_continuations
             cwd requirements_txt
             [] comment (continued ++ LF :: py "bar" ++ [LF])
             eq_refl eq_refl eq_refl (or_introl eq_refl)).
  - exact (requirements_keep_comments_and_continuations
             cwd requirements_txt
             (comment ++ [LF]) continued (py "bar" ++ [LF])
             eq_refl eq_refl eq_refl (or_intror eq_refl)).
Defined.

(** C8: the list is the [splitlines] decomposition of the text of the
    file; an empty line (a newline met where a line starts) gives an empty
    entry, and one newline after the last line gives no entry. *)
Theorem requirements_are_splitlines cwd file_name raw :
  lookup file_name cwd = Some (File true (Text raw)) ->
  outcome (requirements_from_file file_name) cwd = Ok (splitlines raw) /\
  (forall pre post,
     raw = pre ++ LF :: post -> at_line_start pre = true ->
     splitlines raw = splitlines pre ++ [] :: splitlines post) /\
  (forall body,
     raw = body ++ [LF] -> ends_inside_line body = true ->
     splitlines raw = splitlines body).
Proof.
  intros Hf. split; [|split].
  - unfold outcome. now rewrite (requirements_from_file_text _ _ _ Hf).
  - intros pre post -> Hpre.
    now apply (splitlines_own_entry pre [] post).
  - intros body -> Hbody. now apply splitlines_trailing_newline.
Qed.

Lemma requirements_are_splitlines_witness :
  let raw := py "foo" ++ LF :: LF :: py "bar" ++ [LF] in
  let cwd := [(requirements_txt, File true (Text raw))] in
  outcome (requirements_from_file requirements_txt) cwd =
    Ok [py "foo"; []; py "bar"] /\
  splitlines raw =
    splitlines (py "foo" ++ [LF]) ++ [] :: splitlines (py "bar" ++ [LF]) /\
  splitlines raw = splitlines (py "foo" ++ LF :: LF :: py "bar").
Proof.
  intros raw cwd.
  destruct (requirements_are_splitlines cwd requirements_txt raw eq_refl)
    as (H1 & H2 & H3).
  split; [exact H1|split].
  - exact (H2 (py "foo" ++ [LF]) (py "bar" ++ [LF]) eq_refl eq_refl).
  - exact (H3 (py "foo" ++ LF :: LF :: py "bar") eq_refl eq_refl).
Defined.

(** C10: no entry of the list returned by [requirements_from_file] holds
    a line boundary. *)
Theorem requirements_entries_hold_no_linebreak cwd file_name entries :
  outcome (requirements_from_file file_name) cwd = Ok entries ->
  forall entry, In entry entries ->
  forall c, In c entry -> is_linebreak c = false.
Proof.
  intros H entry He c Hc.
  destruct (requirements_from_file_ok_inv _ _ _ H) as (raw & _ & ->).
  pose proof (splitlines_no_linebreak raw) as Hall.
  rewrite forallb_forall in Hall. specialize (Hall entry He).
  unfold no_linebreak in Hall. rewrite forallb_forall in Hall.
  apply negb_true_iff. now apply Hall.
Qed.

Lemma requirements_entries_hold_no_linebreak_witness :
  let cwd :=
    [(requirements_txt,
      File true (Text (py "foo" ++ CR :: LF :: py "bar" ++ 12 :: py "baz"
                         ++ 8232 :: py "qux")))] in
  outcome (requirements_from_file requirements_txt) cwd =
    Ok [py "foo"; py "bar"; py "baz"; py "qux"] /\
  forall entry,
    In entry [py "foo"; py "bar"; py "baz"; py "qux"] ->
    forall c, In c entry -> is_linebreak c = false.
Proof.
  intros cwd. split; [reflexivity|].
  exact (requirements_entries_hold_no_linebreak cwd requirements_txt
           [py "foo"; py "bar"; py "baz"; py "qux"] eq_refl).
Defined.

(* ================================================================= *)
(** * The run of the script *)

Lemma setup_py_run cwd :
  setup_py cwd =
  match requirements_from_file requirements_txt cwd with
  | (t, Ok reqs) =>
      (Call_find_packages (py "lib") :: Call_glob script_pattern :: t
         ++ [Call_setup (manifest cwd reqs)], Ok tt)
  | (t, Raise e) =>
      (Call_find_packages (py "lib") :: Call_glob script_pattern :: t, Raise e)
  end.
Proof.
  unfold setup_py, bind, find_packages, setuptools.find, glob.glob, setup,
    call, getcwd, ret.
  fold requirements_txt.
  destruct (requirements_from_file requirements_txt cwd) as [t [reqs|e]];
    cbn [app]; reflexivity.
Qed.

Lemma setup_py_ok cwd raw :
  lookup requirements_txt cwd = Some (File true (Text raw)) ->
  setup_py cwd =
  ([Call_find_packages (py "lib"); Call_glob script_pattern;
    Call_open requirements_txt; Call_read;
    Call_setup (manifest cwd (splitlines raw))], Ok tt).
Proof.
  intros H. rewrite setup_py_run, (requirements_from_file_text _ _ _ H).
  reflexivity.
Qed.

(** The pattern of the script takes the branch of [_iglob] that is
    modelled: its directory part, [bin], has no magic; its base name,
    [*.py], has magic, is not hidden and has no bracket expression. *)
Lemma script_pattern_shape :
  posixpath.split script_pattern = (py "bin", py "*.py") /\
  glob.has_magic script_pattern = true /\
  glob.has_magic (py "bin") = false /\
  glob.has_magic (py "*.py") = true /\
  glob.ishidden (py "*.py") = false /\
  contains 91 (py "*.py") = false.
Proof. repeat split. Qed.


Lemma emitted_app t1 t2 : emitted (t1 ++ t2) = emitted t1 ++ emitted t2.
Proof. unfold emitted. apply flat_map_app. Qed.

Lemma access_error_total x :
  readable_text x = false -> exists e, access_error x = Some e.
Proof.
  destruct x as [[[|] [|raw]|es]|]; simpl; try discriminate; eauto.
Qed.

(** When the file does not read as text, the script stops at [open] or at
    [read], with the exception raised there. *)
Lemma setup_py_raises cwd e :
  access_error (lookup requirements_txt cwd) = Some e ->
  setup_py cwd =
  (Call_find_packages (py "lib") :: Call_glob script_pattern ::
     (if is_OSError e then [Call_open requirements_txt]
      else [Call_open requirements_txt; Call_read]),
   Raise e).
Proof.
  intros He. rewrite setup_py_run, (requirements_from_file_raises _ _ _ He).
  reflexivity.
Qed.

(** C2: when the requirements file is missing or does not read as text,
    the script ends in the exception of that file access, and [setup] has
    not been called: no record, partial or not, reaches the build tool. *)
Theorem setup_not_reached_without_requirements cwd :
  readable_text (lookup requirements_txt cwd) = false ->
  exists e,
    access_error (lookup requirements_txt cwd) = Some e /\
    outcome setup_py cwd = Raise e /\
    emitted (trace_of setup_py cwd) = [] /\
    (lookup requirements_txt cwd <> Some (File true Undecodable) ->
     is_OSError e = true).
Proof.
  intros H. destruct (access_error_total _ H) as [e He].
  exists e. split; [exact He|].
  unfold outcome, trace_of. rewrite (setup_py_raises _ _ He).
  split; [reflexivity|split].
  - destruct (is_OSError e); reflexivity.
  - destruct (lookup requirements_txt cwd) as [[[|] [|raw]|es]|];
      simpl in He; inversion He; subst; try reflexivity. congruence.
Qed.

Lemma setup_not_reached_without_requirements_witness :
  let cwd := [(py "bin", Dir []); (py "lib", Dir [])] in
  exists e,
    access_error (lookup requirements_txt cwd) = Some e /\
    outcome setup_py cwd = Raise e /\
    emitted (trace_of setup_py cwd) = [] /\
    (lookup requirements_txt cwd <> Some (File true Undecodable) ->
     is_OSError e = true).
Proof.
  exact (setup_not_reached_without_requirements
           [(py "bin", Dir []); (py "lib", Dir [])] eq_refl).
Defined.

(** The script reaches [setup] exactly when the file reads as text. *)
Lemma setup_reached_iff cwd :
  emitted (trace_of setup_py cwd) <> [] <->
  readable_text (lookup requirements_txt cwd) = true.
Proof.
  split.
  - intros H. destruct (readable_text (lookup requirements_txt cwd)) eqn:E;
      [reflexivity|].
    destruct (access_error_total _ E) as [e He]. exfalso. apply H.
    unfold trace_of. rewrite (setup_py_raises _ _ He).
    destruct (is_OSError e); reflexivity.
  - intros H.
    destruct (lookup requirements_txt cwd) as [[[|] [|raw]|es]|] eqn:E;
      try discriminate.
    unfold trace_of. rewrite (setup_py_ok _ _ E). discriminate.
Qed.



(* ================================================================= *)
(** * [glob.glob("bin/*.py")] *)

Lemma match_star p s :
  fnmatch.match_toks (fnmatch.Star :: p) s =
  fnmatch.match_toks p s ||
  match s with
  | [] => false
  | _ :: s' => fnmatch.match_toks (fnmatch.Star :: p) s'
  end.
Proof. destruct s; reflexivity. Qed.

Lemma match_three_literals a b c s :
  fnmatch.match_toks [fnmatch.Lit a; fnmatch.Lit b; fnmatch.Lit c] s = true
  <-> s = [a; b; c].
Proof.
  split.
  - destruct s as [|x [|y [|z [|w s]]]]; simpl; try discriminate;
      rewrite ?andb_false_r; try discriminate.
    rewrite andb_true_r, !andb_true_iff, !N.eqb_eq.
    now intros (-> & -> & ->).
  - intros ->. simpl. now rewrite !N.eqb_refl.
Qed.

(** The pattern [*.py] matches the names that end in [.py]. *)
Lemma fnmatch_py name :
  fnmatch.fnmatchcase name (py "*.py") = true <-> has_py_extension name.
Proof.
  change (fnmatch.fnmatchcase name (py "*.py"))
    with (fnmatch.match_toks
            [fnmatch.Star; fnmatch.Lit 46; fnmatch.Lit 112; fnmatch.Lit 121]
            name).
  unfold has_py_extension. change (py ".py") with [46; 112; 121].
  induction name as [|c s IH]; rewrite match_star, orb_true_iff.
  - split.
    + intros [H|H]; discriminate.
    + intros (stem & H). destruct stem; discriminate.
  - rewrite match_three_literals, IH. split.
    + intros [H|(stem & ->)].
      * exists []. exact H.
      * exists (c :: stem). reflexivity.
    + intros (stem & H). destruct stem as [|d stem].
      * left. exact H.
      * right. exists stem. simpl in H. now inversion H.
Qed.

(** The scripts: the names listed in [bin] that are not hidden and match
    [*.py], in the order of the listing, each joined to [bin]. *)
Lemma iglob_scripts cwd :
  glob.iglob cwd script_pattern =
  map (posixpath.join (py "bin"))
      (filter (fun n => fnmatch.fnmatchcase n (py "*.py"))
              (filter (fun n => negb (glob.ishidden n)) (listdir cwd (py "bin")))).
Proof. reflexivity. Qed.

Lemma In_scripts cwd p :
  In p (glob.iglob cwd script_pattern) <->
  exists n, In n (listdir cwd (py "bin")) /\ glob.ishidden n = false /\
            has_py_extension n /\ p = posixpath.join (py "bin") n.
Proof.
  rewrite iglob_scripts, in_map_iff. split.
  - intros (n & <- & Hn). apply filter_In in Hn as [Hn Hm].
    apply filter_In in Hn as [Hn Hh]. apply negb_true_iff in Hh.
    apply fnmatch_py in Hm. eauto.
  - intros (n & Hn & Hh & Hm & ->). exists n. split; [reflexivity|].
    apply filter_In. split; [|now apply fnmatch_py].
    apply filter_In. split; [assumption|now rewrite Hh].
Qed.

Lemma os_path_join_bin n :
  posixpath.join (py "bin") n =
  if startswith SLASH n then n else py "bin/" ++ n.
Proof. unfold posixpath.join. destruct (startswith SLASH n); reflexivity. Qed.

Lemma os_path_join_bin_hidden n :
  glob.ishidden n = true -> posixpath.join (py "bin") n = py "bin/" ++ n.
Proof.
  intros H. rewrite os_path_join_bin.
  destruct n as [|c n]; [discriminate|]. simpl in *.
  apply N.eqb_eq in H. subst c. reflexivity.
Qed.

(** A hidden name is not the path of any script. *)
Lemma hidden_not_in_scripts cwd name :
  glob.ishidden name = true ->
  ~ In (py "bin/" ++ name) (glob.iglob cwd script_pattern).
Proof.
  intros Hh Hin. apply In_scripts in Hin as (n & _ & Hn & _ & E).
  rewrite os_path_join_bin in E. destruct (startswith SLASH n) eqn:Hs.
  - subst n. discriminate.
  - apply app_inv_head in E. congruence.
Qed.

Lemma glob_glob_run cwd pathname :
  glob.glob pathname cwd = ([Call_glob pathname], Ok (glob.iglob cwd pathname)).
Proof. reflexivity. Qed.

(** C5: when no name listed in [bin] ends in [.py] without being hidden
    (and also when there is no directory [bin] to list), the list of
    scripts is empty and the [glob] call raises nothing; a script whose
    requirements file reads as text then runs to the [setup] call, with an
    empty [scripts] in its record. *)
Theorem no_script_is_no_error cwd :
  (forall n, In n (listdir cwd (py "bin")) ->
             ~ (has_py_extension n /\ glob.ishidden n = false)) ->
  outcome (glob.glob script_pattern) cwd = Ok [] /\
  forall raw,
    lookup requirements_txt cwd = Some (File true (Text raw)) ->
    outcome setup_py cwd = Ok tt /\
    exists cfg, emitted (trace_of setup_py cwd) = [cfg] /\ scripts cfg = [].
Proof.
  intros H.
  assert (E : glob.iglob cwd script_pattern = []).
  { destruct (glob.iglob cwd script_pattern) as [|p ps] eqn:Ep; [reflexivity|].
    assert (Hp : In p (glob.iglob cwd script_pattern)) by (rewrite Ep; now left).
    apply In_scripts in Hp as (n & Hn & Hh & Hm & _).
    destruct (H n Hn). now split. }
  split.
  - unfold outcome. rewrite glob_glob_run. simpl. now rewrite E.
  - intros raw Hf. unfold outcome, trace_of. rewrite (setup_py_ok _ _ Hf).
    split; [reflexivity|]. eexists. split; [reflexivity|]. exact E.
Qed.

Lemma no_script_is_no_error_witness :
  let cwd := [(py "bin", Dir [(py "notes.txt", File true (Text []));
                              (py ".hidden.py", File true (Text []))]);
              (requirements_txt, File true (Text (py "foo")))] in
  outcome (glob.glob script_pattern) cwd = Ok [] /\
  outcome setup_py cwd = Ok tt.
Proof.
  intros cwd.
  assert (H : forall n, In n (listdir cwd (py "bin")) ->
                        ~ (has_py_extension n /\ glob.ishidden n = false)).
  { intros n [<-|[<-|[]]] [Hm Hh].
    - apply fnmatch_py in Hm. discriminate.
    - discriminate. }
  destruct (no_script_is_no_error cwd H) as [H1 H2].
  split; [exact H1|].
  exact (proj1 (H2 (py "foo") eq_refl)).
Defined.

(** C9: a name of [bin] that begins with a dot, [.hidden.py] for one, is
    not in the list of scripts, whatever its extension. *)
Theorem hidden_scripts_are_skipped cwd name :
  glob.ishidden name = true ->
  exists scrs,
    outcome (glob.glob script_pattern) cwd = Ok scrs /\
    ~ In (py "bin/" ++ name) scrs.
Proof.
  intros H. exists (glob.iglob cwd script_pattern). split; [reflexivity|].
  now apply hidden_not_in_scripts.
Qed.

Lemma hidden_scripts_are_skipped_witness :
  exists scrs,
    outcome (glob.glob script_pattern)
      [(py "bin", Dir [(py ".hidden.py", File true (Text []));
                       (py "run.py", File true (Text []))])] = Ok scrs /\
    ~ In (py "bin/" ++ py ".hidden.py") scrs.
Proof.
  exact (hidden_scripts_are_skipped
    [(py "bin", Dir [(py ".hidden.py", File true (Text []));
                     (py "run.py", File true (Text []))])]
    (py ".hidden.py") eq_refl).
Defined.

(** Trees of the same shape list the same names. *)
Lemma same_shape_lookup (es1 es2 : dir) n :
  Forall2 (fun e1 e2 => fst e1 = fst e2 /\ same_shape (snd e1) (snd e2))
          es1 es2 ->
  match lookup n es1, lookup n es2 with
  | Some x, Some y => same_shape x y
  | None, None => True
  | _, _ => False
  end.
Proof.
  induction 1 as [|[n1 x1] [n2 x2] es1 es2 [Hn Hx] _ IH]; simpl; [exact I|].
  simpl in Hn, Hx. subst n2. now destruct (str_eqb n1 n).
Qed.

Lemma same_shape_names (es1 es2 : dir) :
  Forall2 (fun e1 e2 => fst e1 = fst e2 /\ same_shape (snd e1) (snd e2))
          es1 es2 ->
  map fst es1 = map fst es2.
Proof.
  induction 1 as [|e1 e2 es1 es2 [Hn _] _ IH]; simpl; [reflexivity|].
  now rewrite Hn, IH.
Qed.

Lemma same_shape_listdir cwd1 cwd2 n :
  same_shape (Dir cwd1) (Dir cwd2) -> listdir cwd1 n = listdir cwd2 n.
Proof.
  intros H. inversion H as [|? ? HF]; subst.
  pose proof (same_shape_lookup _ _ n HF) as Hl. unfold listdir.
  destruct (lookup n cwd1) as [x|], (lookup n cwd2) as [y|];
    try contradiction; [|reflexivity].
  inversion Hl as [|? ? HF']; subst; [reflexivity|].
  now apply same_shape_names.
Qed.

(** C6, as the specification words it, fails: [.hidden.py] is a file of
    [bin] with the extension [.py], and it is not among the scripts. *)
Lemma hidden_py_file_is_no_script :
  let bin := [(py ".hidden.py", File true (Text []))] in
  let cwd := [(py "bin", Dir bin)] in
  lookup (py "bin") cwd = Some (Dir bin) /\
  In (py ".hidden.py", File true (Text [])) bin /\
  has_py_extension (py ".hidden.py") /\
  outcome (glob.glob script_pattern) cwd = Ok [].
Proof.
  repeat split; [now left|]. exists (py ".hidden"). reflexivity.
Qed.

(** C6 (amended): the list of scripts depends on the names listed in
    [bin] only, never on what a file holds: working directories of the same
    shape give the same list; and every entry of [bin] whose name ends in
    [.py] and does not begin with a dot is in the list. *)
Theorem scripts_depend_on_names_only cwd1 cwd2 :
  same_shape (Dir cwd1) (Dir cwd2) ->
  glob.glob script_pattern cwd1 = glob.glob script_pattern cwd2 /\
  forall bin name x,
    lookup (py "bin") cwd1 = Some (Dir bin) ->
    In (name, x) bin ->
    has_py_extension name -> glob.ishidden name = false ->
    exists scrs,
      outcome (glob.glob script_pattern) cwd2 = Ok scrs /\
      In (posixpath.join (py "bin") name) scrs.
Proof.
  intros H.
  assert (E : glob.iglob cwd1 script_pattern = glob.iglob cwd2 script_pattern).
  { rewrite !iglob_scripts. now rewrite (same_shape_listdir _ _ _ H). }
  split.
  - rewrite !glob_glob_run. now rewrite E.
  - intros bin name x Hbin Hin Hext Hh.
    exists (glob.iglob cwd2 script_pattern). split; [reflexivity|].
    rewrite <- E. apply In_scripts. exists name. repeat split; try assumption.
    unfold listdir. rewrite Hbin. apply in_map_iff. now exists (name, x).
Qed.

Lemma scripts_depend_on_names_only_witness :
  let cwd1 := [(py "bin", Dir [(py "run.py", File true (Text (py "print(1)")))])] in
  let cwd2 := [(py "bin", Dir [(py "run.py", File false Undecodable)])] in
  glob.glob script_pattern cwd1 = glob.glob script_pattern cwd2 /\
  exists scrs,
    outcome (glob.glob script_pattern) cwd2 = Ok scrs /\
    In (py "bin/run.py") scrs.
Proof.
  intros cwd1 cwd2.
  assert (H : same_shape (Dir cwd1) (Dir cwd2)).
  { repeat (constructor; simpl). }
  destruct (scripts_depend_on_names_only cwd1 cwd2 H) as [H1 H2].
  split; [exact H1|].
  refine (H2 _ (py "run.py") _ eq_refl (or_introl eq_refl) _ eq_refl).
  exists (py "run"). reflexivity.
Defined.

(* ================================================================= *)
(** * [find_packages(where="lib")] *)

Lemma lookup_In n (d : dir) x : lookup n d = Some x -> In (n, x) d.
Proof.
  induction d as [|[m y] d IH]; simpl; [discriminate|].
  destruct (str_eqb m n) eqn:E.
  - apply str_eqb_eq in E. intros H. inversion H; subst. now left.
  - intros H. right. now apply IH.
Qed.

Lemma In_lookup n (d : dir) x :
  unique_names (map fst d) = true -> In (n, x) d -> lookup n d = Some x.
Proof.
  induction d as [|[m y] d IH]; simpl; [contradiction|].
  intros Hu [H|H]; apply andb_prop in Hu as [Hm Hu].
  - inversion H; subst. now rewrite str_eqb_refl.
  - destruct (str_eqb m n) eqn:E; [|now apply IH].
    apply str_eqb_eq in E. subst m. apply negb_true_iff in Hm.
    assert (Hex : existsb (str_eqb n) (map fst d) = true).
    { apply existsb_exists. exists n. split; [|apply str_eqb_refl].
      apply in_map_iff. now exists (n, x). }
    congruence.
Qed.

Lemma match_lits l s :
  fnmatch.match_toks (map fnmatch.Lit l) s = true <-> s = l.
Proof.
  revert s. induction l as [|c l IH]; intros [|x s]; simpl;
    try (split; discriminate); [tauto|].
  rewrite andb_true_iff, N.eqb_eq, IH. split.
  - now intros [-> ->].
  - intros H. inversion H. auto.
Qed.

(** A star followed by literals matches the texts that end in them. *)
Lemma match_star_lits l s :
  fnmatch.match_toks (fnmatch.Star :: map fnmatch.Lit l) s = true <->
  exists stem, s = stem ++ l.
Proof.
  induction s as [|c s IH]; rewrite match_star, orb_true_iff, match_lits.
  - split.
    + intros [<-|H]; [now exists []|discriminate].
    + intros (stem & H). left. destruct stem; [exact H|discriminate].
  - rewrite IH. split.
    + intros [<-|(stem & ->)]; [now exists []|now exists (c :: stem)].
    + intros ([|d stem] & H); [left; exact H|right].
      exists stem. simpl in H. now inversion H.
Qed.

(** The exclude filter of [find_packages] holds of [ez_setup] and of the
    names that end in [__pycache__], and of no other. *)
Lemma excluded_iff s : excluded s = true <-> always_excluded s.
Proof.
  unfold excluded, always_excluded, setuptools.Filter_call,
    setuptools.ALWAYS_EXCLUDE. cbn [existsb].
  rewrite orb_false_r, orb_true_iff.
  change (fnmatch.fnmatchcase s (py "ez_setup"))
    with (fnmatch.match_toks (map fnmatch.Lit (py "ez_setup")) s).
  change (fnmatch.fnmatchcase s (py "*__pycache__"))
    with (fnmatch.match_toks
            (fnmatch.Star :: map fnmatch.Lit (py "__pycache__")) s).
  now rewrite match_lits, match_star_lits.
Qed.

(** The include filter of [find_packages] holds of every name. *)
Lemma included_all s : setuptools.Filter_call [py "*"] s = true.
Proof.
  unfold setuptools.Filter_call. cbn [existsb]. rewrite orb_false_r.
  change (fnmatch.fnmatchcase s (py "*"))
    with (fnmatch.match_toks (fnmatch.Star :: map fnmatch.Lit []) s).
  apply match_star_lits. exists s. now rewrite app_nil_r.
Qed.

Lemma str_eqb_last_differs (a b : str) x y :
  x <> y -> str_eqb (a ++ [x]) (b ++ [y]) = false.
Proof.
  intros Hxy. destruct (str_eqb (a ++ [x]) (b ++ [y])) eqn:E; [|reflexivity].
  apply str_eqb_eq, app_inj_tail in E as [_ E]. contradiction.
Qed.

(** With the patterns of [ALWAYS_EXCLUDE] the walk is never pruned early:
    none of them ends in a star. *)
Lemma never_pruned package :
  setuptools.pruned setuptools.ALWAYS_EXCLUDE package = false.
Proof.
  unfold setuptools.pruned, setuptools.Filter_contains,
    setuptools.ALWAYS_EXCLUDE. cbn [existsb].
  change (package ++ py ".*") with (package ++ [46] ++ [42]).
  rewrite app_assoc.
  change (package ++ py "*") with (package ++ [42]).
  change (py "ez_setup") with (py "ez_setu" ++ [112]).
  change (py "*__pycache__") with (py "*__pycache_" ++ [95]).
  now rewrite !str_eqb_last_differs by discriminate.
Qed.

(** The walk of [find_packages] below a directory: the packages among its
    entries that are not excluded, then what the walk finds below each
    package among its entries, excluded or not. *)
Lemma packages_below_dir root es :
  packages_below root (Dir es) =
  map (fun e => setuptools.dotted (root ++ [fst e]))
      (filter (fun e => setuptools.is_package e &&
                        negb (excluded (setuptools.dotted (root ++ [fst e]))))
              es)
  ++
  flat_map
    (fun e => if setuptools.is_package e
              then packages_below (root ++ [fst e]) (snd e)
              else [])
    es.
Proof.
  unfold packages_below. cbn [setuptools.find_iter]. f_equal.
  - f_equal. apply filter_ext. intros e. unfold setuptools.yielded.
    now rewrite included_all.
  - apply flat_map_ext. intros e. now rewrite never_pruned, andb_true_r.
Qed.

Lemma is_package_inv e :
  setuptools.is_package e = true ->
  exists sub, snd e = Dir sub /\ contains DOT (fst e) = false /\
              setuptools.looks_like_package sub = true.
Proof.
  unfold setuptools.is_package. destruct (snd e) as [r c|sub]; [discriminate|].
  intros H. apply andb_prop in H as [Hd Hm]. apply negb_true_iff in Hd.
  eauto.
Qed.

(** Every chain of packages whose name is not excluded is found. *)
Lemma find_iter_complete path :
  forall (d : dir) root,
    path <> [] -> package_chain d path = true ->
    excluded (setuptools.dotted (root ++ path)) = false ->
    In (setuptools.dotted (root ++ path)) (packages_below root (Dir d)).
Proof.
  induction path as [|n path IH]; intros d root Hne H Hex; [congruence|].
  simpl in H. destruct (lookup n d) as [[r c|sub]|] eqn:El; try discriminate.
  apply andb_prop in H as [H Hchain]. apply lookup_In in El.
  assert (Hk : setuptools.is_package (n, Dir sub) = true) by exact H.
  rewrite packages_below_dir. apply in_or_app. destruct path as [|m path].
  - left. apply in_map_iff. exists (n, Dir sub). split; [reflexivity|].
    apply filter_In. split; [assumption|].
    cbn [fst]. now rewrite Hk, Hex.
  - right. apply in_flat_map. exists (n, Dir sub). split; [assumption|].
    rewrite Hk. cbn [fst snd].
    replace (root ++ n :: m :: path) with ((root ++ [n]) ++ m :: path) in *
      by now rewrite <- app_assoc.
    apply IH; [discriminate|assumption|assumption].
Qed.

(** Everything found is a chain of packages, with a name that is not
    excluded. *)
Lemma find_iter_sound x :
  forall root s,
    wf_node x = true -> In s (packages_below root x) ->
    exists d path,
      x = Dir d /\ path <> [] /\ s = setuptools.dotted (root ++ path) /\
      package_chain d path = true /\ excluded s = false.
Proof.
  induction x as [r c|es IH] using node_tree_ind; intros root s Hwf Hin;
    [contradiction|].
  cbn [wf_node] in Hwf. apply andb_prop in Hwf as [Hu Hsub].
  rewrite packages_below_dir in Hin. apply in_app_or in Hin as [Hin|Hin].
  - apply in_map_iff in Hin as ([n x] & <- & He).
    apply filter_In in He as [He Hk]. apply andb_prop in Hk as [Hk Hex].
    apply negb_true_iff in Hex. cbn [fst] in Hex.
    destruct (is_package_inv _ Hk) as (sub & Hx & Hd & Hm).
    simpl in Hx, Hd. subst x.
    exists es, [n]. cbn [fst]. repeat split; [discriminate| |assumption].
    simpl. rewrite (In_lookup _ _ _ Hu He), Hd, Hm. reflexivity.
  - apply in_flat_map in Hin as ([n x] & He & Hin).
    destruct (setuptools.is_package (n, x)) eqn:Hk; [|contradiction].
    destruct (is_package_inv _ Hk) as (sub & Hx & Hd & Hm).
    simpl in Hx, Hd. subst x.
    rewrite Forall_forall in IH. rewrite forallb_forall in Hsub.
    destruct (IH _ He (root ++ [n]) s (Hsub _ He) Hin)
      as (d & path & Ed & Hne & -> & Hc & Hex).
    simpl in Ed. inversion Ed; subst d.
    exists es, (n :: path). repeat split; [discriminate| | |assumption].
    + now rewrite <- app_assoc.
    + simpl. rewrite (In_lookup _ _ _ Hu He), Hd, Hm, Hc. reflexivity.
Qed.

Lemma package_chain_dot_free path :
  forall d, package_chain d path = true -> dot_free path = true.
Proof.
  induction path as [|n path IH]; intros d H; [reflexivity|].
  simpl in H. destruct (lookup n d) as [[r c|sub]|]; try discriminate.
  apply andb_prop in H as [H Hc]. apply andb_prop in H as [Hd _].
  simpl. rewrite Hd. simpl. now apply (IH sub).
Qed.

(** The last directory of a chain of packages is there and holds the
    setuptools.marker file. *)
Lemma package_chain_resolve path :
  forall d, path <> [] -> package_chain d path = true ->
  exists sub, resolve d path = Some (Dir sub) /\
              setuptools.looks_like_package sub = true.
Proof.
  induction path as [|n path IH]; intros d Hne H; [congruence|].
  simpl in H. destruct (lookup n d) as [[r c|sub]|] eqn:El; try discriminate.
  apply andb_prop in H as [H Hc]. apply andb_prop in H as [_ Hm].
  simpl. rewrite El. destruct path as [|m path].
  - exists sub. split; [reflexivity|assumption].
  - apply IH; [discriminate|assumption].
Qed.

Lemma contains_app c a b : contains c (a ++ b) = contains c a || contains c b.
Proof. unfold contains. apply existsb_app. Qed.

Lemma app_dot_inj a b x y :
  contains DOT a = false -> contains DOT b = false ->
  a ++ DOT :: x = b ++ DOT :: y -> a = b /\ x = y.
Proof.
  revert b. induction a as [|c a IH]; intros [|e b] Ha Hb E; simpl in *.
  - inversion E. auto.
  - inversion E; subst. simpl in Hb. rewrite ?N.eqb_refl in Hb. discriminate.
  - inversion E; subst. simpl in Ha. rewrite ?N.eqb_refl in Ha. discriminate.
  - inversion E; subst. apply orb_false_iff in Ha as [_ Ha].
    apply orb_false_iff in Hb as [_ Hb].
    destruct (IH b Ha Hb H1) as [-> ->]. auto.
Qed.

(** Paths without dots have different dotted names. *)
Lemma dotted_inj p :
  forall q, dot_free p = true -> dot_free q = true ->
            p <> [] -> q <> [] ->
            setuptools.dotted p = setuptools.dotted q -> p = q.
Proof.
  unfold setuptools.dotted.
  induction p as [|a p IH]; intros [|b q] Hp Hq Hpn Hqn E; try congruence.
  simpl in Hp, Hq. apply andb_prop in Hp as [Ha Hp].
  apply andb_prop in Hq as [Hb Hq]. apply negb_true_iff in Ha, Hb.
  destruct p as [|a' p], q as [|b' q].
  - simpl in E. now subst.
  - simpl in E. subst a. rewrite contains_app in Ha.
    apply orb_false_iff in Ha as [_ Ha]. simpl in Ha.
    rewrite ?N.eqb_refl in Ha. discriminate.
  - simpl in E. subst b. rewrite contains_app in Hb.
    apply orb_false_iff in Hb as [_ Hb]. simpl in Hb.
    rewrite ?N.eqb_refl in Hb. discriminate.
  - change (a ++ DOT :: str_join [DOT] (a' :: p) =
            b ++ DOT :: str_join [DOT] (b' :: q)) in E.
    destruct (app_dot_inj _ _ _ _ Ha Hb E) as [-> E'].
    f_equal. apply IH; try assumption; discriminate.
Qed.

Lemma find_packages_run cwd where_ :
  find_packages where_ cwd =
  ([Call_find_packages where_],
   Ok match lookup where_ cwd with
      | Some x => packages_below [] x
      | None => []
      end).
Proof. reflexivity. Qed.

(** C3, as the specification words it, fails: [lib/a/b] holds the marker
    file, [lib/a] does not, and [a.b] is not in the list. *)
Lemma package_below_plain_directory_is_missed :
  let b := [(setuptools.marker, File true (Text []))] in
  let lib := [(py "a", Dir [(py "b", Dir b)])] in
  let cwd := [(py "lib", Dir lib)] in
  resolve lib [py "a"; py "b"] = Some (Dir b) /\
  setuptools.looks_like_package b = true /\
  setuptools.dotted [py "a"; py "b"] = py "a.b" /\
  outcome (find_packages (py "lib")) cwd = Ok [] /\
  forall pkgs, outcome (find_packages (py "lib")) cwd = Ok pkgs ->
               ~ In (py "a.b") pkgs.
Proof.
  repeat split. intros pkgs H. inversion H. intros [].
Qed.

(** C3 (amended): below the root [lib], a nested directory is listed under
    its dotted path when it and every directory between it and the root
    hold the marker file and have names without a dot, unless that dotted
    path is [ez_setup] or ends in [__pycache__]; every entry of the list is
    the dotted path of such a directory; and a nested directory that lacks
    the marker file, its path free of dots, is not listed. *)
Theorem find_packages_lists_package_chains cwd lib :
  lookup (py "lib") cwd = Some (Dir lib) ->
  wf_node (Dir lib) = true ->
  exists pkgs,
    outcome (find_packages (py "lib")) cwd = Ok pkgs /\
    (forall path,
       path <> [] -> package_chain lib path = true ->
       ~ always_excluded (setuptools.dotted path) ->
       In (setuptools.dotted path) pkgs) /\
    (forall s,
       In s pkgs ->
       exists path, path <> [] /\ s = setuptools.dotted path /\
                    package_chain lib path = true /\
                    ~ always_excluded s) /\
    (forall path sub,
       path <> [] -> dot_free path = true ->
       resolve lib path = Some (Dir sub) ->
       setuptools.looks_like_package sub = false ->
       ~ In (setuptools.dotted path) pkgs).
Proof.
  intros Hlib Hwf. exists (packages_below [] (Dir lib)).
  assert (Hsound : forall s, In s (packages_below [] (Dir lib)) ->
            exists path, path <> [] /\ s = setuptools.dotted path /\
                         package_chain lib path = true /\
                         ~ always_excluded s).
  { intros s Hs.
    destruct (find_iter_sound _ _ _ Hwf Hs)
      as (d & path & Ed & Hne & E & Hc & Hex).
    inversion Ed; subst d. exists path. repeat split; try assumption.
    intros Hx. apply excluded_iff in Hx. congruence. }
  split; [|split; [|split]].
  - unfold outcome. rewrite find_packages_run, Hlib. reflexivity.
  - intros path Hne Hc Hex. apply (find_iter_complete path lib []);
      try assumption.
    destruct (excluded (setuptools.dotted ([] ++ path))) eqn:E;
      [|reflexivity].
    apply excluded_iff in E. contradiction.
  - exact Hsound.
  - intros path sub Hne Hdf Hres Hm Hin.
    destruct (Hsound _ Hin) as (q & Hqn & E & Hc & _).
    assert (path = q).
    { apply dotted_inj; try assumption.
      now apply (package_chain_dot_free q lib). }
    subst q.
    destruct (package_chain_resolve _ _ Hne Hc) as (sub' & Hres' & Hm').
    congruence.
Qed.

Lemma find_packages_lists_package_chains_witness :
  let init := (setuptools.marker, File true (Text [])) in
  let pkg := [init; (py "sub", Dir [init]);
              (py "__pycache__", Dir [init]);
              (py "data", Dir [(py "deep", Dir [init])])] in
  let lib := [(py "hadx", Dir pkg)] in
  let cwd := [(py "lib", Dir lib)] in
  exists pkgs,
    outcome (find_packages (py "lib")) cwd = Ok pkgs /\
    In (py "hadx.sub") pkgs /\
    ~ In (py "hadx.data") pkgs.
Proof.
  intros init pkg lib cwd.
  destruct (find_packages_lists_package_chains cwd lib eq_refl eq_refl)
    as (pkgs & Hrun & Hin & _ & Hout).
  exists pkgs. split; [exact Hrun|split].
  - apply (Hin [py "hadx"; py "sub"]); [discriminate|reflexivity|].
    intros H. apply excluded_iff in H. discriminate.
  - apply (Hout [py "hadx"; py "data"] [(py "deep", Dir [init])]);
      [discriminate|reflexivity|reflexivity|reflexivity].
Defined.

(* ================================================================= *)
(** * Further properties of [requirements_from_file] *)

Lemma splitlines_unlines_crlf ls rest :
  forallb no_linebreak ls = true ->
  splitlines (unlines_crlf ls ++ rest) = ls ++ splitlines rest.
Proof.
  induction ls as [|l ls IH]; intros H; simpl in *; [reflexivity|].
  apply andb_prop in H as [Hl Hls].
  rewrite <- !app_assoc. cbn [app].
  rewrite splitlines_line by (auto; reflexivity).
  cbn [skip_break]. rewrite !N.eqb_refl. f_equal. now apply IH.
Qed.

Lemma splitlines_nil_iff (s : str) : splitlines s = [] <-> s = [].
Proof.
  split; [|now intros ->].
  rewrite splitlines_unfold. destruct s as [|c s]; [reflexivity|].
  destruct (scan_line (c :: s)). discriminate.
Qed.

Lemma endswith_app c (a b : str) :
  b <> [] -> endswith c (a ++ b) = endswith c b.
Proof.
  intros Hb. unfold endswith. rewrite rev_app_distr.
  destruct (rev b) as [|x t] eqn:E; [|reflexivity].
  apply (f_equal (@rev char)) in E. rewrite rev_involutive in E.
  simpl in E. congruence.
Qed.

Lemma newline_only_app a b :
  newline_only (a ++ b) = newline_only a && newline_only b.
Proof. unfold newline_only. apply forallb_app. Qed.

(** Joining the lines again, each with its newline, gives back a text that
    ends in a newline and has no other boundary. *)
Lemma unlines_splitlines (s : str) :
  newline_only s = true ->
  s = [] \/ endswith LF s = true ->
  unlines (splitlines s) = s.
Proof.
  induction s as [s IH] using str_length_ind. intros Hn Hend.
  destruct s as [|c0 s0]; [reflexivity|].
  destruct Hend as [Hend|Hend]; [discriminate|].
  remember (c0 :: s0) as s eqn:Es.
  destruct (scan_line s) as [l r] eqn:Hs.
  destruct (scan_line_spec _ _ _ Hs) as (E & Hl & Hr).
  destruct r as [|b r].
  - rewrite app_nil_r in E. subst l. exfalso.
    assert (Hlast : no_linebreak [LF] = true).
    { unfold endswith, startswith in Hend.
      destruct (rev s) as [|x t] eqn:Er; [discriminate|].
      apply N.eqb_eq in Hend. subst x.
      apply (f_equal (@rev char)) in Er. rewrite rev_involutive in Er.
      rewrite Er in Hl. simpl in Hl. rewrite no_linebreak_app in Hl.
      now apply andb_prop in Hl as [_ Hl]. }
    discriminate.
  - rewrite E in Hn. rewrite newline_only_app in Hn.
    apply andb_prop in Hn as [_ Hn]. cbn [newline_only forallb] in Hn.
    apply andb_prop in Hn as [Hb Hn]. rewrite Hr in Hb.
    rewrite orb_false_r in Hb. apply N.eqb_eq in Hb. subst b.
    assert (Hlen : (List.length r < List.length s)%nat).
    { rewrite E, length_app. simpl. lia. }
    assert (Hr' : r = [] \/ endswith LF r = true).
    { destruct r as [|d r]; [now left|right].
      rewrite <- Hend, E.
      change (l ++ LF :: d :: r) with (l ++ [LF] ++ d :: r).
      rewrite app_assoc. symmetry. apply endswith_app. discriminate. }
    rewrite E. rewrite splitlines_line by assumption.
    rewrite skip_break_LF. cbn [unlines flat_map].
    rewrite <- app_assoc. cbn [app]. do 2 f_equal.
    now apply IH.
Qed.

(** X2: a file whose lines are each ended by [\r\n] gives its lines, in
    order, none with a [\r] left at its end. *)
Theorem requirements_of_crlf_file cwd file_name lines :
  lookup file_name cwd = Some (File true (Text (unlines_crlf lines))) ->
  forallb no_linebreak lines = true ->
  outcome (requirements_from_file file_name) cwd = Ok lines.
Proof.
  intros Hf Hlines. unfold outcome.
  rewrite (requirements_from_file_text _ _ _ Hf). simpl.
  rewrite <- (app_nil_r (unlines_crlf lines)).
  rewrite splitlines_unlines_crlf by assumption.
  apply f_equal, app_nil_r.
Qed.

Lemma requirements_of_crlf_file_witness :
  let lines := [py "foo==1.0"; []; py "bar>=2"] in
  outcome (requirements_from_file requirements_txt)
    [(requirements_txt, File true (Text (unlines_crlf lines)))] = Ok lines.
Proof.
  intros lines.
  exact (requirements_of_crlf_file
           [(requirements_txt, File true (Text (unlines_crlf lines)))]
           requirements_txt lines eq_refl eq_refl).
Defined.

(** X3: the list is empty exactly when the file is empty: a file that
    holds anything, be it one newline, gives at least one entry. *)
Theorem requirements_empty_iff_file_empty cwd file_name raw :
  lookup file_name cwd = Some (File true (Text raw)) ->
  outcome (requirements_from_file file_name) cwd = Ok [] <-> raw = [].
Proof.
  intros Hf. unfold outcome.
  rewrite (requirements_from_file_text _ _ _ Hf). simpl. split.
  - intros H. apply splitlines_nil_iff. congruence.
  - intros ->. reflexivity.
Qed.

Lemma requirements_empty_iff_file_empty_witness :
  (outcome (requirements_from_file requirements_txt)
     [(requirements_txt, File true (Text []))] = Ok [] <-> @nil char = []) /\
  (outcome (requirements_from_file requirements_txt)
     [(requirements_txt, File true (Text [LF]))] = Ok [] <-> [LF] = []).
Proof.
  split.
  - exact (requirements_empty_iff_file_empty
             [(requirements_txt, File true (Text []))]
             requirements_txt [] eq_refl).
  - exact (requirements_empty_iff_file_empty
             [(requirements_txt, File true (Text [LF]))]
             requirements_txt [LF] eq_refl).
Defined.

(** X4: nothing of the file is lost: for a text that is empty or ends in a
    newline, and has no other line boundary, writing the entries of the list
    one per line gives the text back. *)
Theorem requirements_round_trip cwd file_name raw entries :
  lookup file_name cwd = Some (File true (Text raw)) ->
  newline_only raw = true ->
  raw = [] \/ endswith LF raw = true ->
  outcome (requirements_from_file file_name) cwd = Ok entries ->
  unlines entries = raw.
Proof.
  intros Hf Hn Hend H. unfold outcome in H.
  rewrite (requirements_from_file_text _ _ _ Hf) in H. simpl in H.
  inversion H; subst. now apply unlines_splitlines.
Qed.

Lemma requirements_round_trip_witness :
  let raw := py "# deps" ++ LF :: LF :: py "foo >= 1" ++ [LF] in
  unlines [py "# deps"; []; py "foo >= 1"] = raw.
Proof.
  intros raw.
  exact (requirements_round_trip
           [(requirements_txt, File true (Text raw))] requirements_txt raw
           [py "# deps"; []; py "foo >= 1"]
           eq_refl eq_refl (or_intror eq_refl) eq_refl).
Defined.

(* ================================================================= *)
(** * Further properties of the scripts *)

Lemma posixpath_join_bin_inj n m :
  posixpath.join (py "bin") n = posixpath.join (py "bin") m -> n = m.
Proof.
  rewrite !os_path_join_bin.
  destruct (startswith SLASH n) eqn:Hn, (startswith SLASH m) eqn:Hm; intros E.
  - exact E.
  - subst n. discriminate.
  - subst m. discriminate.
  - now apply app_inv_head in E.
Qed.

Lemma unique_names_NoDup names : unique_names names = true -> NoDup names.
Proof.
  induction names as [|n ns IH]; simpl; intros H; constructor;
    apply andb_prop in H as [Hn Hns].
  - intros Hin. apply negb_true_iff in Hn.
    assert (existsb (str_eqb n) ns = true); [|congruence].
    apply existsb_exists. exists n. split; [assumption|apply str_eqb_refl].
  - now apply IH.
Qed.

Lemma break_at_app c (a b : str) :
  contains c a = false -> break_at c (a ++ c :: b) = (a, c :: b).
Proof.
  induction a as [|x a IH]; simpl; intros H.
  - now rewrite N.eqb_refl.
  - apply orb_false_iff in H as [Hx Ha]. rewrite N.eqb_sym in Hx.
    now rewrite Hx, (IH Ha).
Qed.

Lemma contains_rev c (s : str) : contains c (rev s) = contains c s.
Proof.
  induction s as [|x s IH]; [reflexivity|].
  simpl. rewrite contains_app, IH. simpl. rewrite orb_false_r.
  apply orb_comm.
Qed.

(** Splitting the path of a script gives [bin] and the name back. *)
Lemma posixpath_split_join_bin n :
  slash_free n = true ->
  posixpath.split (posixpath.join (py "bin") n) = (py "bin", n).
Proof.
  intros H. apply negb_true_iff in H.
  assert (Hs : startswith SLASH n = false).
  { destruct n as [|c n]; [reflexivity|]. simpl in *.
    apply orb_false_iff in H as [H _]. now rewrite N.eqb_sym. }
  rewrite os_path_join_bin, Hs. unfold posixpath.split.
  rewrite rev_app_distr.
  change (rev (py "bin/")) with (SLASH :: rev (py "bin")).
  rewrite break_at_app by now rewrite contains_rev.
  rewrite rev_involutive. reflexivity.
Qed.

(** X6: no script is listed twice, when the listing of [bin] repeats no
    name. *)
Theorem scripts_have_no_duplicates cwd scrs :
  NoDup (listdir cwd (py "bin")) ->
  outcome (glob.glob script_pattern) cwd = Ok scrs ->
  NoDup scrs.
Proof.
  intros Hnd H. unfold outcome in H. rewrite glob_glob_run in H.
  simpl in H. inversion H; subst. rewrite iglob_scripts.
  apply NoDup_map_NoDup_ForallPairs.
  - intros n m _ _. apply posixpath_join_bin_inj.
  - now do 2 apply NoDup_filter.
Qed.

Lemma scripts_have_no_duplicates_witness :
  NoDup [py "bin/a.py"; py "bin/b.py"].
Proof.
  refine (scripts_have_no_duplicates
    [(py "bin", Dir [(py "a.py", File true (Text []));
                     (py "notes", Dir []);
                     (py "b.py", File true (Text []))])]
    [py "bin/a.py"; py "bin/b.py"] _ eq_refl).
  apply unique_names_NoDup. reflexivity.
Defined.

(** X7: every script is the path of an entry of [bin] itself, and not of
    anything deeper: it is [bin] joined to a name that [bin] lists, that
    ends in [.py] and does not begin with a dot; when that name has no slash,
    as every file name has, splitting the path gives [bin] and the name
    back. *)
Theorem scripts_are_entries_of_bin cwd scrs p :
  outcome (glob.glob script_pattern) cwd = Ok scrs ->
  In p scrs ->
  exists n,
    In n (listdir cwd (py "bin")) /\
    has_py_extension n /\ glob.ishidden n = false /\
    p = posixpath.join (py "bin") n /\
    (slash_free n = true -> posixpath.split p = (py "bin", n)).
Proof.
  intros H Hp. unfold outcome in H. rewrite glob_glob_run in H.
  simpl in H. inversion H; subst.
  apply In_scripts in Hp as (n & Hn & Hh & Hext & ->).
  exists n. repeat split; try assumption.
  apply posixpath_split_join_bin.
Qed.

Lemma scripts_are_entries_of_bin_witness :
  exists n,
    In n [py "tools"; py "run.py"] /\
    has_py_extension n /\ glob.ishidden n = false /\
    py "bin/run.py" = posixpath.join (py "bin") n /\
    (slash_free n = true ->
     posixpath.split (py "bin/run.py") = (py "bin", n)).
Proof.
  exact (scripts_are_entries_of_bin
    [(py "bin", Dir [(py "tools", Dir [(py "deep.py", File true (Text []))]);
                     (py "run.py", File true (Text []))])]
    [py "bin/run.py"] (py "bin/run.py") eq_refl (or_introl eq_refl)).
Defined.

Lemma filter_two_kept (f : str -> bool) l1 n1 l2 n2 l3 :
  f n1 = true -> f n2 = true ->
  filter f (l1 ++ n1 :: l2 ++ n2 :: l3) =
  filter f l1 ++ n1 :: filter f l2 ++ n2 :: filter f l3.
Proof.
  intros H1 H2. rewrite filter_app. cbn [filter]. rewrite H1.
  rewrite filter_app. cbn [filter]. now rewrite H2.
Qed.

(** X8: the scripts come in the order in which [bin] lists their names. *)
Theorem scripts_keep_listing_order cwd l1 n1 l2 n2 l3 :
  listdir cwd (py "bin") = l1 ++ n1 :: l2 ++ n2 :: l3 ->
  has_py_extension n1 -> glob.ishidden n1 = false ->
  has_py_extension n2 -> glob.ishidden n2 = false ->
  exists s1 s2 s3,
    outcome (glob.glob script_pattern) cwd =
    Ok (s1 ++ posixpath.join (py "bin") n1 ::
        s2 ++ posixpath.join (py "bin") n2 :: s3).
Proof.
  intros Hl He1 Hh1 He2 Hh2.
  apply fnmatch_py in He1, He2.
  unfold outcome. rewrite glob_glob_run. cbn [snd].
  rewrite iglob_scripts, Hl.
  set (keep := fun l => filter (fun n => fnmatch.fnmatchcase n (py "*.py"))
                          (filter (fun n => negb (glob.ishidden n)) l)).
  exists (map (posixpath.join (py "bin")) (keep l1)),
         (map (posixpath.join (py "bin")) (keep l2)),
         (map (posixpath.join (py "bin")) (keep l3)).
  f_equal. unfold keep.
  rewrite (filter_two_kept _ l1 n1 l2 n2 l3) by now (rewrite ?Hh1, ?Hh2).
  rewrite (filter_two_kept _ _ n1 _ n2 _) by assumption.
  rewrite map_app. cbn [map]. rewrite map_app. reflexivity.
Qed.

Lemma scripts_keep_listing_order_witness :
  exists s1 s2 s3,
    outcome (glob.glob script_pattern)
      [(py "bin", Dir [(py "z.py", File true (Text []));
                       (py "README", File true (Text []));
                       (py "a.py", File true (Text []))])] =
    Ok (s1 ++ posixpath.join (py "bin") (py "z.py") ::
        s2 ++ posixpath.join (py "bin") (py "a.py") :: s3).
Proof.
  refine (scripts_keep_listing_order
    [(py "bin", Dir [(py "z.py", File true (Text []));
                     (py "README", File true (Text []));
                     (py "a.py", File true (Text []))])]
    [] (py "z.py") [py "README"] (py "a.py") []
    eq_refl _ eq_refl _ eq_refl).
  - exists (py "z"). reflexivity.
  - exists (py "a"). reflexivity.
Defined.

(** X9: the extension is matched with its case: a name that ends in
    [.PY] is not a script. *)
Theorem scripts_extension_is_case_sensitive cwd stem :
  exists scrs,
    outcome (glob.glob script_pattern) cwd = Ok scrs /\
    ~ In (posixpath.join (py "bin") (stem ++ py ".PY")) scrs.
Proof.
  exists (glob.iglob cwd script_pattern). split; [reflexivity|].
  intros Hin. apply In_scripts in Hin as (n & _ & _ & (s & Hext) & E).
  apply posixpath_join_bin_inj in E. rewrite <- E in Hext. clear E.
  change (py ".PY") with ([46; 80] ++ [89]) in Hext.
  change (py ".py") with ([46; 112] ++ [121]) in Hext.
  rewrite !app_assoc in Hext. apply app_inj_tail in Hext as [_ Hext].
  discriminate.
Qed.

(* ================================================================= *)
(** * Further properties of the packages *)

Lemma filter_nil_iff {A} (f : A -> bool) l :
  filter f l = [] <-> forall x, In x l -> f x = false.
Proof.
  induction l as [|a l IH]; simpl.
  - split; [intros _ x []|reflexivity].
  - destruct (f a) eqn:E; split.
    + discriminate.
    + intros H. rewrite (H a) in E by now left. discriminate.
    + intros H x [<-|Hx]; [assumption|]. now apply IH.
    + intros H. apply IH. intros x Hx. apply H. now right.
Qed.

Lemma flat_map_nil {A B} (f : A -> list B) l :
  (forall x, In x l -> f x = []) -> flat_map f l = [].
Proof.
  induction l as [|a l IH]; simpl; intros H; [reflexivity|].
  rewrite (H a) by now left. apply IH. intros x Hx. apply H. now right.
Qed.

Lemma NoDup_flat_map {A B} (f : A -> list B) l :
  NoDup l ->
  (forall x, In x l -> NoDup (f x)) ->
  (forall x y b, In x l -> In y l -> In b (f x) -> In b (f y) -> x = y) ->
  NoDup (flat_map f l).
Proof.
  induction 1 as [|a l Ha Hl IH]; simpl; intros Hf Hd; [constructor|].
  apply NoDup_app.
  - apply Hf. now left.
  - apply IH.
    + intros x Hx. apply Hf. now right.
    + intros x y b Hx Hy. apply Hd; now right.
  - intros b Hb Hb'. apply in_flat_map in Hb' as (y & Hy & Hb').
    apply Ha. rewrite (Hd a y b); auto; now (left + right).
Qed.


(** The dotted name of a path below [root] starts with what [root] alone
    decides. *)
Lemma dotted_app root tail :
  tail <> [] ->
  setuptools.dotted (root ++ tail) =
  flat_map (fun r => r ++ [DOT]) root ++ setuptools.dotted tail.
Proof.
  intros Ht. unfold setuptools.dotted.
  induction root as [|a root IH]; [reflexivity|].
  change ((a :: root) ++ tail) with (a :: (root ++ tail)).
  cbn [flat_map]. rewrite <- !app_assoc. rewrite <- IH.
  destruct (root ++ tail) eqn:E; [|reflexivity].
  destruct root, tail; simpl in E; congruence.
Qed.

(** What is found below [root] has a dotted name that goes on below
    [root], from a name without a dot. *)
Lemma find_iter_below x :
  forall root s,
    In s (packages_below root x) ->
    exists n path,
      contains DOT n = false /\
      s = setuptools.dotted (root ++ n :: path).
Proof.
  induction x as [r c|es IH] using node_tree_ind; intros root s Hin;
    [contradiction|].
  rewrite packages_below_dir in Hin. apply in_app_or in Hin as [Hin|Hin].
  - apply in_map_iff in Hin as ([n y] & <- & He).
    apply filter_In in He as [He Hk]. apply andb_prop in Hk as [Hk _].
    destruct (is_package_inv _ Hk) as (sub & _ & Hd & _). simpl in Hd.
    exists n, []. split; [assumption|reflexivity].
  - apply in_flat_map in Hin as ([n y] & He & Hin).
    destruct (setuptools.is_package (n, y)) eqn:Hk; [|contradiction].
    destruct (is_package_inv _ Hk) as (sub & _ & Hd & _). simpl in Hd.
    cbn [fst snd] in Hin.
    rewrite Forall_forall in IH.
    destruct (IH _ He (root ++ [n]) s Hin) as (m & path & _ & ->).
    exists n, (m :: path). split; [assumption|].
    now rewrite <- app_assoc.
Qed.

(** A dotted name below [root] tells the first name of its path, when
    that name has no dot. *)
Lemma dotted_first_name root n p m q :
  contains DOT n = false -> contains DOT m = false ->
  setuptools.dotted (root ++ n :: p) = setuptools.dotted (root ++ m :: q) ->
  n = m /\ (p = [] <-> q = []).
Proof.
  intros Hn Hm E. rewrite !dotted_app in E by discriminate.
  apply app_inv_head in E. unfold setuptools.dotted in E.
  destruct p as [|a p], q as [|b q]; cbn [str_join] in E.
  - split; [assumption|tauto].
  - subst n. rewrite contains_app in Hn.
    apply orb_false_iff in Hn as [_ Hn]. simpl in Hn.
    rewrite ?N.eqb_refl in Hn. discriminate.
  - subst m. rewrite contains_app in Hm.
    apply orb_false_iff in Hm as [_ Hm]. simpl in Hm.
    rewrite ?N.eqb_refl in Hm. discriminate.
  - change (n ++ DOT :: str_join [DOT] (a :: p) =
            m ++ DOT :: str_join [DOT] (b :: q)) in E.
    destruct (app_dot_inj _ _ _ _ Hn Hm E) as [-> _].
    split; [reflexivity|]. split; discriminate.
Qed.

Lemma unique_entry (es : dir) n y y' :
  unique_names (map fst es) = true ->
  In (n, y) es -> In (n, y') es -> y = y'.
Proof.
  intros Hu H H'. apply (In_lookup _ _ _ Hu) in H, H'. congruence.
Qed.

Lemma find_iter_NoDup x :
  forall root, wf_node x = true -> NoDup (packages_below root x).
Proof.
  induction x as [r c|es IH] using node_tree_ind; intros root Hwf;
    [constructor|].
  cbn [wf_node] in Hwf. apply andb_prop in Hwf as [Hu Hsub].
  rewrite forallb_forall in Hsub. rewrite Forall_forall in IH.
  assert (Hes : NoDup es).
  { apply (NoDup_map_inv fst). now apply unique_names_NoDup. }
  rewrite packages_below_dir. apply NoDup_app.
  - apply NoDup_map_NoDup_ForallPairs; [|now apply NoDup_filter].
    intros [n y] [m z] H1 H2 E. cbn [fst] in E.
    apply filter_In in H1 as [H1 K1]. apply filter_In in H2 as [H2 K2].
    apply andb_prop in K1 as [K1 _]. apply andb_prop in K2 as [K2 _].
    destruct (is_package_inv _ K1) as (? & _ & D1 & _).
    destruct (is_package_inv _ K2) as (? & _ & D2 & _). simpl in D1, D2.
    destruct (dotted_first_name root n [] m [] D1 D2 E) as [-> _].
    f_equal. exact (unique_entry es m y z Hu H1 H2).
  - apply NoDup_flat_map; [assumption| |].
    + intros e He. destruct (setuptools.is_package e); [|constructor].
      now apply IH, Hsub.
    + intros [n y] [m z] s H1 H2 S1 S2.
      destruct (setuptools.is_package (n, y)) eqn:K1; [|contradiction].
      destruct (setuptools.is_package (m, z)) eqn:K2; [|contradiction].
      destruct (is_package_inv _ K1) as (? & _ & D1 & _).
      destruct (is_package_inv _ K2) as (? & _ & D2 & _). simpl in D1, D2.
      cbn [fst snd] in S1, S2.
      apply find_iter_below in S1 as (a & p & _ & E1).
      apply find_iter_below in S2 as (b & q & _ & E2).
      rewrite <- app_assoc in E1, E2. cbn [app] in E1, E2.
      rewrite E1 in E2.
      destruct (dotted_first_name root n (a :: p) m (b :: q) D1 D2 E2)
        as [-> _].
      f_equal. exact (unique_entry es m y z Hu H1 H2).
  - intros s HA HB.
    apply in_map_iff in HA as ([n y] & <- & HA).
    apply filter_In in HA as [_ K1]. apply andb_prop in K1 as [K1 _].
    destruct (is_package_inv _ K1) as (? & _ & D1 & _). simpl in D1.
    apply in_flat_map in HB as ([m z] & _ & HB).
    destruct (setuptools.is_package (m, z)) eqn:K2; [|contradiction].
    destruct (is_package_inv _ K2) as (? & _ & D2 & _). simpl in D2.
    cbn [fst snd] in HB.
    apply find_iter_below in HB as (b & q & _ & E2).
    rewrite <- app_assoc in E2. cbn [app] in E2.
    destruct (dotted_first_name root n [] m (b :: q) D1 D2 E2) as [_ [H _]].
    specialize (H eq_refl). discriminate.
Qed.

(** X10: the walk starts from the packages that [lib] holds itself. When
    no directory of [lib] itself holds the marker file under a name without
    a dot, the list of packages is empty, whatever lies deeper (and so it
    is, without error, when [lib] is missing or is no directory); and every
    directory of [lib] itself that holds the marker file under a name
    without a dot is listed under that name, unless the name is [ez_setup]
    or ends in [__pycache__]. *)
Theorem packages_start_at_top_level cwd pkgs :
  outcome (find_packages (py "lib")) cwd = Ok pkgs ->
  ((forall lib n sub,
      lookup (py "lib") cwd = Some (Dir lib) ->
      In (n, Dir sub) lib -> contains DOT n = false ->
      setuptools.looks_like_package sub = false) ->
   pkgs = []) /\
  (forall lib n sub,
     lookup (py "lib") cwd = Some (Dir lib) ->
     In (n, Dir sub) lib -> contains DOT n = false ->
     setuptools.looks_like_package sub = true ->
     ~ always_excluded n ->
     In n pkgs).
Proof.
  intros H. unfold outcome in H. rewrite find_packages_run in H.
  cbn [snd] in H.
  assert (Ep : pkgs = match lookup (py "lib") cwd with
                      | Some x => packages_below [] x
                      | None => []
                      end) by congruence.
  clear H. subst pkgs. split.
  - intros Hno. destruct (lookup (py "lib") cwd) as [[r c|es]|];
      try reflexivity.
    assert (Hk : forall e, In e es -> setuptools.is_package e = false).
    { intros [n y] He. destruct (setuptools.is_package (n, y)) eqn:Hk;
        [|reflexivity].
      destruct (is_package_inv _ Hk) as (sub & Hy & Hd & Hm).
      simpl in Hy, Hd. subst y.
      rewrite (Hno es n sub eq_refl He Hd) in Hm. discriminate. }
    rewrite packages_below_dir.
    rewrite (proj2 (filter_nil_iff _ es)).
    + apply flat_map_nil. intros e He. now rewrite (Hk e He).
    + intros e He. now rewrite (Hk e He).
  - intros lib n sub Hl Hin Hd Hm Hex. rewrite Hl, packages_below_dir.
    apply in_or_app. left. apply in_map_iff. exists (n, Dir sub).
    split; [reflexivity|]. apply filter_In. split; [assumption|].
    unfold setuptools.is_package. cbn [fst snd app].
    rewrite Hd, Hm. cbn [negb andb].
    apply negb_true_iff. change (setuptools.dotted [n]) with n.
    destruct (excluded n) eqn:E; [|reflexivity].
    apply excluded_iff in E. contradiction.
Qed.

Lemma packages_start_at_top_level_witness :
  let init := (setuptools.marker, File true (Text [])) in
  let cwd1 :=
    [(py "lib", Dir [(py "hadx.egg-info", Dir [init]);
                     (py "plain", Dir [(py "pkg", Dir [init])])])] in
  let cwd2 :=
    [(py "lib", Dir [(py "ez_setup", Dir [init; (py "sub", Dir [init])]);
                     (py "hadx", Dir [init])])] in
  @nil str = [] /\ In (py "hadx") [py "hadx"; py "ez_setup.sub"].
Proof.
  intros init cwd1 cwd2. split.
  - apply (proj1 (packages_start_at_top_level cwd1 [] eq_refl)).
    intros lib n sub Hl. inversion Hl; subst lib.
    intros [Hin|[Hin|[]]]; inversion Hin; subst; [discriminate|reflexivity].
  - apply (proj2 (packages_start_at_top_level
                    cwd2 [py "hadx"; py "ez_setup.sub"] eq_refl)
             _ (py "hadx") [init] eq_refl);
      [right; left; reflexivity|reflexivity|reflexivity|].
    intros H. apply excluded_iff in H. discriminate.
Defined.



(** X12: no package is listed twice, when no directory of the tree
    repeats a name. *)
Theorem packages_have_no_duplicates cwd lib pkgs :
  lookup (py "lib") cwd = Some (Dir lib) ->
  wf_node (Dir lib) = true ->
  outcome (find_packages (py "lib")) cwd = Ok pkgs ->
  NoDup pkgs.
Proof.
  intros Hlib Hwf H. unfold outcome in H.
  rewrite find_packages_run, Hlib in H. cbn [snd] in H.
  assert (Ep : pkgs = packages_below [] (Dir lib)) by congruence.
  subst pkgs. now apply find_iter_NoDup.
Qed.

Lemma packages_have_no_duplicates_witness :
  let init := (setuptools.marker, File true (Text [])) in
  let lib := [(py "a", Dir [init; (py "x", Dir [init])]);
              (py "b", Dir [init; (py "x", Dir [init])])] in
  NoDup [py "a"; py "b"; py "a.x"; py "b.x"].
Proof.
  intros init lib.
  exact (packages_have_no_duplicates
           [(py "lib", Dir lib)] lib [py "a"; py "b"; py "a.x"; py "b.x"]
           eq_refl eq_refl eq_refl).
Defined.
